(** * docling-haystack: the [DoclingConverter] component

    A shallow embedding of [docling_haystack/converter.py] and the
    properties of its orchestration layer: input normalisation, per-item
    error isolation, the two export modes, temporary-file cleanup, the
    default metadata extractor and the dictionary round trip.

    The external collaborators (docling's converter, chunker and document
    model, haystack's [Document], [ByteStream] and serialisation helpers,
    Python's [tempfile], [pathlib] and [logging]) are represented through
    the interface the module uses: an object is a record of the methods the
    code calls on it, and a method that can raise returns a [Res]. *)

From Stdlib Require Import ZArith.
From Stdlib.Strings Require Import Byte Ascii.
From stdpp Require Import gmap strings list fin_maps pretty.

Set Warnings "-register-all".

(** ** Python values and exceptions *)

(** Scalar values, as they occur in the metadata of a [ByteStream]. *)
Inductive PyScalar :=
| PyNone
| PyBool (b : bool)
| PyInt (z : Z)
| PyStr (s : string).

(** Structured values ([Any] restricted to JSON-like data): keyword
    arguments, metadata of output documents, serialised components. *)
Inductive PyVal :=
| PyAtom (a : PyScalar)
| PyList (l : list PyVal)
| PyDict (d : gmap string PyVal).

(** [bool(v)]. *)
Definition truthy (v : PyScalar) : bool :=
  match v with
  | PyNone => false
  | PyBool b => b
  | PyInt z => negb (Z.eqb z 0)
  | PyStr s => negb (String.eqb s "")
  end.

(** [format(v, "")], the text an f-string interpolates for [v]. *)
Definition format_value (v : PyScalar) : string :=
  match v with
  | PyNone => "None"
  | PyBool true => "True"
  | PyBool false => "False"
  | PyInt z => pretty z
  | PyStr s => s
  end.

(** Exceptions.  Every class but [BaseException] below derives from
    [Exception]; [BaseException cls msg] stands for the classes that do not
    ([KeyboardInterrupt], [SystemExit], [GeneratorExit]). *)
Inductive PyExc :=
| RuntimeError (msg : string)
| AttributeError (msg : string)
| TypeError (msg : string)
| FileExistsError (msg : string)
| FileNotFoundError (path : string)
| PermissionError (path : string)
| DeserializationError (msg : string)
| Exception (cls msg : string)
| BaseException (cls msg : string).

Definition isinstance_Exception (e : PyExc) : bool :=
  match e with
  | BaseException _ _ => false
  | _ => true
  end.

(** Outcome of a call: a value or a raised exception. *)
Inductive Res (A : Type) :=
| Return (a : A)
| Raise (e : PyExc).
Arguments Return {A} a.
Arguments Raise {A} e.

Definition res_bind {A B} (r : Res A) (k : A -> Res B) : Res B :=
  match r with
  | Return a => k a
  | Raise e => Raise e
  end.

(** A lazy sequence (generator): consumed element by element, it may raise
    in the middle. *)
Inductive Iterator (A : Type) :=
| StopIteration
| Yield (a : A) (rest : Iterator A)
| IterRaise (e : PyExc).
Arguments StopIteration {A}.
Arguments Yield {A} a rest.
Arguments IterRaise {A} e.

Fixpoint iter_of_list {A} (l : list A) : Iterator A :=
  match l with
  | [] => StopIteration
  | a :: l' => Yield a (iter_of_list l')
  end.

(** ** haystack data classes *)

Module ByteStream.
Record t := mk { data : list byte; meta : gmap string PyScalar }.
End ByteStream.

Module Document.
Record t := mk { content : string; meta : gmap string PyVal }.
End Document.

(** One element of [paths]: [Union[Path, str, ByteStream]].  A [Path] is
    carried by its string form [str(p)]. *)
Inductive Source :=
| src_Path (p : string)
| src_str (s : string)
| src_ByteStream (bs : ByteStream.t).

(** ** docling interfaces *)

(** [model_dump]: the result of [model_dump(exclude_none=True)]. *)
Record DocumentOrigin := { model_dump : gmap string PyVal }.

Record DoclingDocument := {
  origin : option DocumentOrigin;
  export_to_markdown : gmap string PyVal -> Res string
}.

Record BaseChunk := { export_json_dict : gmap string PyVal }.

Record ConversionResult := { document : DoclingDocument }.

(** [convert(source=..., **kwargs)] reads (and may change) the file system. *)
Record DocumentConverter := {
  convert : string -> gmap string PyVal -> gmap string (list byte) ->
            Res ConversionResult * gmap string (list byte)
}.

Record BaseChunker := {
  chunk : DoclingDocument -> Iterator BaseChunk;
  serialize : BaseChunk -> Res string
}.

(** ** The module's own classes *)

Inductive ExportType := MARKDOWN | DOC_CHUNKS.

(** [ExportType] is a [str] enumeration: a member is its string value. *)
Definition ExportType_value (t : ExportType) : string :=
  match t with
  | MARKDOWN => "markdown"
  | DOC_CHUNKS => "doc_chunks"
  end.

Record BaseMetaExtractor := {
  extract_chunk_meta : BaseChunk -> Res (gmap string PyVal);
  extract_dl_doc_meta : DoclingDocument -> Res (gmap string PyVal)
}.

Definition MetaExtractor : BaseMetaExtractor := {|
  extract_chunk_meta chunk :=
    Return {[ "dl_meta" := PyDict (export_json_dict chunk) ]};
  extract_dl_doc_meta dl_doc :=
    Return (match origin dl_doc with
            | Some o => {[ "dl_meta" := PyDict {[ "origin" := PyDict (model_dump o) ]} ]}
            | None => ∅
            end)
|}.

Record DoclingConverter := {
  _converter : DocumentConverter;
  _convert_kwargs : gmap string PyVal;
  _export_type : string;
  _md_export_kwargs : gmap string PyVal;
  _chunker : option BaseChunker;
  _meta_extractor : BaseMetaExtractor
}.

(** ** The world a run acts on *)

Inductive Level := DEBUG | WARNING.

Inductive LogRecord :=
| CouldNotProcess (source : Source) (error : PyExc)
| FailedToDelete (temp_file : string) (e : PyExc).

(** What a run does to its environment, in order. *)
Inductive Event :=
| TempFileCreated (name : string)
| ConvertCalled (source : string) (kwargs : gmap string PyVal)
| UnlinkCalled (name : string)
| Logged (level : Level) (record : LogRecord).

(** [files]: the file system, a flat mapping from paths to contents
    (directories are not represented); [undeletable]: paths whose removal
    the system refuses; [names]: the path stems the temporary-name generator
    proposes next; [trace]: the events so far; [write_errors] and
    [close_errors]: the paths on which writing to an open file, respectively
    closing it, fails, with the error raised (no space left on the device,
    an I/O error, an interrupt). *)
Record World := Build_World {
  files : gmap string (list byte);
  undeletable : gset string;
  names : list string;
  trace : list Event;
  write_errors : gmap string PyExc;
  close_errors : gmap string PyExc
}.

(** A world in which no write and no close fails. *)
Definition mkWorld (files : gmap string (list byte)) (undeletable : gset string)
    (names : list string) (trace : list Event) : World :=
  Build_World files undeletable names trace ∅ ∅.

(** State of one [run] invocation: the world and the two local lists. *)
Record St := mkSt {
  world : World;
  documents : list Document.t;
  temp_files : list string
}.

Definition set_world (f : World -> World) (st : St) : St :=
  mkSt (f (world st)) (documents st) (temp_files st).

Definition emit (ev : Event) (w : World) : World :=
  Build_World (files w) (undeletable w) (names w) (trace w ++ [ev])
              (write_errors w) (close_errors w).

Definition set_files (fs : gmap string (list byte)) (w : World) : World :=
  Build_World fs (undeletable w) (names w) (trace w)
              (write_errors w) (close_errors w).

Definition set_names (ns : list string) (w : World) : World :=
  Build_World (files w) (undeletable w) ns (trace w)
              (write_errors w) (close_errors w).

(** ** State and exception monad *)

Definition M (A : Type) : Type := St -> Res A * St.

Definition ret {A} (a : A) : M A := fun st => (Return a, st).

Definition raise {A} (e : PyExc) : M A := fun st => (Raise e, st).

Definition bind {A B} (m : M A) (k : A -> M B) : M B :=
  fun st =>
    match m st with
    | (Return a, st') => k a st'
    | (Raise e, st') => (Raise e, st')
    end.

Definition lift {A} (r : Res A) : M A := fun st => (r, st).

Declare Scope py_scope.
Delimit Scope py_scope with py.
Notation "x <- c1 ;; c2" := (bind c1 (fun x => c2))
  (at level 100, c1 at next level, right associativity) : py_scope.
Notation "c1 ;; c2" := (bind c1 (fun _ => c2))
  (at level 100, right associativity) : py_scope.
Open Scope py_scope.

(** [try: body / except Exception as e: handler e]. *)
Definition try_except {A} (body : M A) (handler : PyExc -> M A) : M A :=
  fun st =>
    match body st with
    | (Return a, st') => (Return a, st')
    | (Raise e, st') =>
        if isinstance_Exception e then handler e st' else (Raise e, st')
    end.

(** [try: body / finally: final]. *)
Definition try_finally {A} (body : M A) (final : M unit) : M A :=
  fun st =>
    match body st with
    | (r, st') =>
        match final st' with
        | (Return _, st'') => (r, st'')
        | (Raise e, st'') => (Raise e, st'')
        end
    end.

(** [for x in xs: body x]. *)
Fixpoint for_ {A} (xs : list A) (body : A -> M unit) : M unit :=
  match xs with
  | [] => ret tt
  | x :: xs' => body x ;; for_ xs' body
  end.

(** ** Operations on the environment *)

(** [tempfile]: the first proposed stem whose path is free. *)
Fixpoint _mkstemp_inner (stems : list string) (suf : string)
    (fs : gmap string (list byte)) : option (string * list string) :=
  match stems with
  | [] => None
  | stem :: rest =>
      match fs !! (stem +:+ suf) with
      | Some _ => _mkstemp_inner rest suf fs
      | None => Some (stem +:+ suf, rest)
      end
  end.

(** The longest file name the file system accepts, in bytes. *)
Definition NAME_MAX : nat := 255.

Fixpoint string_has (c : Ascii.ascii) (s : string) : bool :=
  match s with
  | EmptyString => false
  | String c' rest => if Ascii.eqb c' c then true else string_has c rest
  end.

(** The part of [s] before its first path separator. *)
Fixpoint first_component (s : string) : string :=
  match s with
  | EmptyString => EmptyString
  | String c rest =>
      if Ascii.eqb c "/"%char then EmptyString
      else String c (first_component rest)
  end.

(** Why opening the path [tmp????????] followed by [suf] fails whatever
    the eight random characters are: a NUL in the path, a file name of more
    than [NAME_MAX] bytes, or a path separator in [suf], which puts the file
    in a directory that does not exist.  [path] is the path tried. *)
Definition suffix_error (path suf : string) : option PyExc :=
  if string_has Ascii.zero suf
  then Some (Exception "ValueError" "embedded null byte")
  else if NAME_MAX <? 11 + String.length (first_component suf)
  then Some (Exception "OSError" "File name too long")
  else if string_has "/"%char suf
  then Some (FileNotFoundError path)
  else None.

(** [tempfile.NamedTemporaryFile(suffix=suffix, delete=False)]: creates an
    empty file under a fresh name; the handle is identified by [.name].
    An error of the first attempt other than an existing file is raised at
    once. *)
Definition NamedTemporaryFile (suffix : option string) : M string :=
  fun st =>
    let w := world st in
    let suf := default "" suffix in
    match suffix_error (hd "" (names w) +:+ suf) suf with
    | Some e => (Raise e, st)
    | None =>
        match _mkstemp_inner (names w) suf (files w) with
        | None =>
            (Raise (FileExistsError "No usable temporary file name found"),
             set_world (set_names []) st)
        | Some (name, rest) =>
            (Return name,
             set_world (fun w => emit (TempFileCreated name)
                          (set_names rest (set_files (<[name := []]> (files w)) w)))
                       st)
        end
    end.

(** [temp_file.write(data)] on the handle of a file just created: the file
    then holds [data], unless the system fails the write, which leaves the
    file as it was created. *)
Definition write (name : string) (data : list byte) : M unit :=
  fun st =>
    match write_errors (world st) !! name with
    | Some e => (Raise e, st)
    | None =>
        (Return tt,
         set_world (fun w => set_files (<[name := data]> (files w)) w) st)
    end.

(** [temp_file.close()]: flushes what was written and releases the handle,
    unless the system fails it; the file stays where it was created. *)
Definition close (name : string) : M unit :=
  fun st =>
    match close_errors (world st) !! name with
    | Some e => (Raise e, st)
    | None => (Return tt, st)
    end.

(** [Path(name).unlink()]. *)
Definition unlink (name : string) : M unit :=
  fun st =>
    let st1 := set_world (emit (UnlinkCalled name)) st in
    let w := world st1 in
    match files w !! name with
    | None => (Raise (FileNotFoundError name), st1)
    | Some _ =>
        if decide (name ∈ undeletable w) then (Raise (PermissionError name), st1)
        else (Return tt, set_world (set_files (delete name (files w))) st1)
    end.

(** [logger.warning(...)] and [logger.debug(...)]. *)
Definition log (level : Level) (record : LogRecord) : M unit :=
  fun st => (Return tt, set_world (emit (Logged level record)) st).

(** [self._converter.convert(source=filepath, **kwargs)]. *)
Definition call_convert (c : DocumentConverter) (filepath : string)
    (kwargs : gmap string PyVal) : M ConversionResult :=
  fun st =>
    let st1 := set_world (emit (ConvertCalled filepath kwargs)) st in
    match convert c filepath kwargs (files (world st1)) with
    | (r, fs) => (r, set_world (set_files fs) st1)
    end.

(** Updates of the local lists of [run]. *)
Definition documents_extend (ds : list Document.t) : M unit :=
  fun st => (Return tt, mkSt (world st) (documents st ++ ds) (temp_files st)).

Definition documents_append (d : Document.t) : M unit :=
  fun st => (Return tt, mkSt (world st) (documents st ++ [d]) (temp_files st)).

Definition temp_files_append (f : string) : M unit :=
  fun st => (Return tt, mkSt (world st) (documents st) (temp_files st ++ [f])).

(** ** [DoclingConverter] *)

(** The [suffix] computed by [_handle_bytestream]. *)
Definition bytestream_suffix (bytestream : ByteStream.t) : option string :=
  if truthy (default PyNone (ByteStream.meta bytestream !! "file_extension"))
  then Some ("." +:+ format_value
               (default (PyStr "") (ByteStream.meta bytestream !! "file_extension")))
  else None.

(** [_handle_bytestream]. *)
Definition _handle_bytestream (bytestream : ByteStream.t) : M (string * bool) :=
  let suffix := bytestream_suffix bytestream in
  temp_file <- NamedTemporaryFile suffix ;;
  write temp_file (ByteStream.data bytestream) ;;
  close temp_file ;;
  ret (temp_file, true).

(** The list comprehension of [run]: one [Document] per chunk, built while
    the iterator is consumed. *)
Fixpoint chunk_documents (chunker : BaseChunker) (extractor : BaseMetaExtractor)
    (chunk_iter : Iterator BaseChunk) : Res (list Document.t) :=
  match chunk_iter with
  | StopIteration => Return []
  | IterRaise e => Raise e
  | Yield c rest =>
      res_bind (serialize chunker c) (fun content =>
      res_bind (extract_chunk_meta extractor c) (fun meta =>
      res_bind (chunk_documents chunker extractor rest) (fun ds =>
      Return (Document.mk content meta :: ds))))
  end.

(** First half of the body of the inner [try] of [run]: the [source] is
    normalised to a path, which the converter turns into a document. *)
Definition convert_source (self : DoclingConverter) (source : Source)
  : M DoclingDocument :=
  filepath <-
    match source with
    | src_ByteStream bs =>
        handled <- _handle_bytestream bs ;;
        let '(filepath, is_temp) := handled in
        (if is_temp : bool then temp_files_append filepath else ret tt) ;;
        ret filepath
    | src_Path p => ret p
    | src_str s => ret s
    end ;;
  res <- call_convert (_converter self) filepath (_convert_kwargs self) ;;
  ret (document res).

(** Second half: the branch on the export type, which adds the records of
    the converted document to [documents]. *)
Definition export_document (self : DoclingConverter) (dl_doc : DoclingDocument)
  : M unit :=
  if String.eqb (_export_type self) (ExportType_value DOC_CHUNKS) then
    chunker <-
      match _chunker self with
      | Some c => ret c
      | None =>
          raise (AttributeError
                   "'DoclingConverter' object has no attribute '_chunker'")
      end ;;
    let chunk_iter := chunk chunker dl_doc in
    hs_docs <- lift (chunk_documents chunker (_meta_extractor self) chunk_iter) ;;
    documents_extend hs_docs
  else if String.eqb (_export_type self) (ExportType_value MARKDOWN) then
    content <- lift (export_to_markdown dl_doc (_md_export_kwargs self)) ;;
    meta <- lift (extract_dl_doc_meta (_meta_extractor self) dl_doc) ;;
    documents_append (Document.mk content meta)
  else
    raise (RuntimeError ("Unexpected export type: " +:+ _export_type self)).

(** The body of the inner [try] of [run], for one [source]. *)
Definition process_source (self : DoclingConverter) (source : Source) : M unit :=
  dl_doc <- convert_source self source ;;
  export_document self dl_doc.

(** One iteration of the loop: the inner [try ... except Exception]. *)
Definition run_item (self : DoclingConverter) (source : Source) : M unit :=
  try_except (process_source self source)
             (fun e => log WARNING (CouldNotProcess source e)).

(** One iteration of the loop of the [finally] block. *)
Definition cleanup_item (temp_file : string) : M unit :=
  try_except (unlink temp_file)
             (fun e => log DEBUG (FailedToDelete temp_file e)).

(** The [finally] block. *)
Definition cleanup : M unit :=
  fun st => for_ (temp_files st) cleanup_item st.

(** The outer [try] block. *)
Definition run_try (self : DoclingConverter) (paths : list Source)
  : M (gmap string (list Document.t)) :=
  for_ paths (run_item self) ;;
  (fun st => (Return {[ "documents" := documents st ]}, st)).

(** [run]: started in world [w], gives the returned mapping (or the
    exception that escapes) and the world it leaves.  The iterable [paths]
    is given by the finite list of the items it yields. *)
Definition run (self : DoclingConverter) (paths : list Source) (w : World)
  : Res (gmap string (list Document.t)) * World :=
  match try_finally (run_try self paths) cleanup (mkSt w [] []) with
  | (r, st) => (r, world st)
  end.

(** ** Construction and serialisation *)

(** haystack's [default_to_dict(obj, **init_parameters)]. *)
Definition default_to_dict (qualified_class_name : string)
    (init_parameters : gmap string PyVal) : gmap string PyVal :=
  {[ "type" := PyAtom (PyStr qualified_class_name);
     "init_parameters" := PyDict init_parameters ]}.

(** haystack's [default_from_dict(cls, data)]; [cls] is the constructor
    applied to keyword arguments. *)
Definition default_from_dict {T} (qualified_class_name : string)
    (cls : gmap string PyVal -> Res T) (data : gmap string PyVal) : Res T :=
  let init_params := default (PyDict ∅) (data !! "init_parameters") in
  match data !! "type" with
  | None => Raise (DeserializationError "Missing 'type' in serialization data")
  | Some ty =>
      match ty with
      | PyAtom (PyStr name) =>
          if String.eqb name qualified_class_name then
            match init_params with
            | PyDict kwargs => cls kwargs
            | _ => Raise (TypeError "argument after ** must be a mapping")
            end
          else Raise (DeserializationError "Class can't be deserialized")
      | _ => Raise (DeserializationError "Class can't be deserialized")
      end
  end.

Definition qualified_class_name : string :=
  "docling_haystack.converter.DoclingConverter".

Section Defaults.

(** The system defaults built by [__init__]: [DocumentConverter()] and
    [HybridChunker(tokenizer=...)]. *)
Variable default_DocumentConverter : DocumentConverter.
Variable default_HybridChunker : BaseChunker.

Definition __init__
    (converter : option DocumentConverter)
    (convert_kwargs : option (gmap string PyVal))
    (export_type : string)
    (md_export_kwargs : option (gmap string PyVal))
    (chunker : option BaseChunker)
    (meta_extractor : option BaseMetaExtractor) : DoclingConverter :=
  {| _converter := default default_DocumentConverter converter;
     _convert_kwargs := default ∅ convert_kwargs;
     _export_type := export_type;
     _md_export_kwargs :=
       default {[ "image_placeholder" := PyAtom (PyStr "") ]} md_export_kwargs;
     _chunker :=
       if String.eqb export_type (ExportType_value DOC_CHUNKS)
       then Some (default default_HybridChunker chunker)
       else None;
     _meta_extractor := default MetaExtractor meta_extractor |}.

(** An optional mapping passed by keyword. *)
Definition kwarg_mapping (v : option PyVal) : Res (option (gmap string PyVal)) :=
  match v with
  | None | Some (PyAtom PyNone) => Return None
  | Some (PyDict d) => Return (Some d)
  | Some _ => Raise (TypeError "not a mapping")
  end.

(** An optional collaborator passed by keyword: structured data cannot
    carry an instance, only [None]. *)
Definition kwarg_instance {T} (v : option PyVal) : Res (option T) :=
  match v with
  | None | Some (PyAtom PyNone) => Return None
  | Some _ => Raise (TypeError "not an instance")
  end.

Definition kwarg_export_type (v : option PyVal) : Res string :=
  match v with
  | None => Return (ExportType_value DOC_CHUNKS)
  | Some (PyAtom (PyStr s)) => Return s
  | Some _ => Raise (TypeError "not an export type")
  end.

Definition init_parameter_names : gset string :=
  {[ "converter"; "convert_kwargs"; "export_type"; "md_export_kwargs";
     "chunker"; "meta_extractor" ]}.

(** [DoclingConverter] called with keyword arguments: a keyword that is no
    parameter of [__init__] is a [TypeError].  A value outside the declared type of its
    parameter has no counterpart in the record: Python stores it unchecked
    and fails when [run] uses it, the embedding refuses it here. *)
Definition DoclingConverter_call (kwargs : gmap string PyVal) : Res DoclingConverter :=
  if decide (dom kwargs ⊆ init_parameter_names) then
    res_bind (kwarg_instance (kwargs !! "converter")) (fun converter =>
    res_bind (kwarg_mapping (kwargs !! "convert_kwargs")) (fun convert_kwargs =>
    res_bind (kwarg_export_type (kwargs !! "export_type")) (fun export_type =>
    res_bind (kwarg_mapping (kwargs !! "md_export_kwargs")) (fun md_export_kwargs =>
    res_bind (kwarg_instance (kwargs !! "chunker")) (fun chunker =>
    res_bind (kwarg_instance (kwargs !! "meta_extractor")) (fun meta_extractor =>
    Return (__init__ converter convert_kwargs export_type md_export_kwargs
                     chunker meta_extractor)))))))
  else Raise (TypeError "__init__() got an unexpected keyword argument").

Definition to_dict (self : DoclingConverter) : gmap string PyVal :=
  default_to_dict qualified_class_name
    {[ "convert_kwargs" := PyDict (_convert_kwargs self);
       "md_export_kwargs" := PyDict (_md_export_kwargs self) ]}.

Definition from_dict (data : gmap string PyVal) : Res DoclingConverter :=
  default_from_dict qualified_class_name DoclingConverter_call data.

End Defaults.

(** ** Test doubles, after [test/test_converter.py] *)

Module Mock.

Definition chunk_of (text : string) : BaseChunk :=
  {| export_json_dict := {[ "text" := PyAtom (PyStr text) ]} |}.

(** A document that exports to the markdown text [md]. *)
Definition dl_doc (md : string) (o : option DocumentOrigin) : DoclingDocument :=
  {| origin := o; export_to_markdown := fun _ => Return md |}.

Definition the_origin : DocumentOrigin :=
  {| model_dump := {[ "filename" := PyAtom (PyStr "2408.09869v5.pdf") ]} |}.

Definition the_dl_doc : DoclingDocument := dl_doc "# Docling" (Some the_origin).

(** The record of [the_dl_doc] in markdown mode. *)
Definition the_md_record : Document.t :=
  Document.mk "# Docling"
    {[ "dl_meta" := PyDict {[ "origin" := PyDict (model_dump the_origin) ]} ]}.

(** Converts every source but ["bad.pdf"], and leaves the files alone. *)
Definition converter : DocumentConverter :=
  {| convert source _ fs :=
       if String.eqb source "bad.pdf"
       then (Raise (Exception "ConversionError" "bad.pdf"), fs)
       else (Return {| document := the_dl_doc |}, fs) |}.

(** Two chunks per document, serialised to their text. *)
Definition chunker : BaseChunker :=
  {| chunk _ := iter_of_list [chunk_of "Docling"; chunk_of "Report"];
     serialize c :=
       match export_json_dict c !! "text" with
       | Some (PyAtom (PyStr s)) => Return s
       | _ => Raise (Exception "ValueError" "no text")
       end |}.

Definition component (export_type : string) : DoclingConverter :=
  __init__ converter chunker None None export_type None None None.

Definition bytestream : ByteStream.t :=
  ByteStream.mk [x23; x20; x44]
    {[ "file_extension" := PyStr "md"; "filename" := PyStr "test_file.md" ]}.

Definition bytestream_empty_extension : ByteStream.t :=
  ByteStream.mk [x23; x20; x44] {[ "file_extension" := PyStr "" ]}.

Definition w0 : World :=
  mkWorld ∅ ∅ ["/tmp/tmpa1b2c3d4"; "/tmp/tmpe5f6g7h8"] [].

(** [run] starts with empty local lists. *)
Definition st0 : St := mkSt w0 [] [].

(** The state after ["bad.pdf"] was skipped in markdown mode. *)
Definition st1 : St :=
  mkSt (mkWorld ∅ ∅ ["/tmp/tmpa1b2c3d4"; "/tmp/tmpe5f6g7h8"]
          [ConvertCalled "bad.pdf" ∅;
           Logged WARNING
             (CouldNotProcess (src_str "bad.pdf")
                (Exception "ConversionError" "bad.pdf"))])
       [] [].

End Mock.

(** ** Observations used in the statements *)

(** Names of the temporary files created, respectively of the files whose
    removal was attempted, in a stretch of the trace. *)
Definition created_names (evs : list Event) : list string :=
  omap (fun ev => match ev with TempFileCreated n => Some n | _ => None end) evs.

Definition unlinked_names (evs : list Event) : list string :=
  omap (fun ev => match ev with UnlinkCalled n => Some n | _ => None end) evs.

(** The events the [finally] block may produce: a removal, or the DEBUG
    record of a removal that failed. *)
Definition is_cleanup_event (ev : Event) : bool :=
  match ev with
  | UnlinkCalled _ => true
  | Logged DEBUG (FailedToDelete _ _) => true
  | _ => false
  end.

(** The state in which the [try] block of [run] ends, the events of the
    [try] block and the events of the [finally] block. *)
Definition run_try_state (self : DoclingConverter) (paths : list Source)
    (w : World) : St :=
  snd (run_try self paths (mkSt w [] [])).

Definition item_events (self : DoclingConverter) (paths : list Source)
    (w : World) : list Event :=
  drop (length (trace w)) (trace (world (run_try_state self paths w))).

Definition cleanup_events (self : DoclingConverter) (paths : list Source)
    (w : World) : list Event :=
  drop (length (trace (world (run_try_state self paths w))))
       (trace (snd (run self paths w))).

(** The output records one loop iteration adds to [documents]. *)
Definition item_records (self : DoclingConverter) (source : Source) (st : St)
  : list Document.t :=
  drop (length (documents st)) (documents (snd (run_item self source st))).

(** The records of each input item, in input order; every iteration starts
    in the state the previous one left. *)
Fixpoint per_item_records (self : DoclingConverter) (paths : list Source)
    (st : St) : list (list Document.t) :=
  match paths with
  | [] => []
  | source :: rest =>
      item_records self source st
        :: per_item_records self rest (snd (run_item self source st))
  end.

(** The state once the temporary file [name] is created, [rest] being the
    stems left to the generator, and the state once it holds [data]. *)
Definition created_state (name : string) (rest : list string) (st : St) : St :=
  mkSt (Build_World (<[name := []]> (files (world st)))
                    (undeletable (world st)) rest
                    (trace (world st) ++ [TempFileCreated name])
                    (write_errors (world st)) (close_errors (world st)))
       (documents st) (temp_files st).

Definition written_state (name : string) (rest : list string)
    (data : list byte) (st : St) : St :=
  mkSt (Build_World (<[name := data]> (files (world st)))
                    (undeletable (world st)) rest
                    (trace (world st) ++ [TempFileCreated name])
                    (write_errors (world st)) (close_errors (world st)))
       (documents st) (temp_files st).

(** The normalisation of a byte buffer, with the bookkeeping of [run]. *)
Definition normalise_bytestream (bs : ByteStream.t) : M string :=
  handled <- _handle_bytestream bs ;;
  let '(filepath, is_temp) := handled in
  (if is_temp : bool then temp_files_append filepath else ret tt) ;;
  ret filepath.

(** A computation [m] steps along [R] when [R] relates every state to the
    state [m] leaves. *)
Definition steps (R : St -> St -> Prop) {A} (m : M A) : Prop :=
  forall st, R st (snd (m st)).

(** [tracked st st']: from [st] to [st'] the trace was extended by events
    among which no removal occurs, [temp_files] was extended by names of
    temporary files those events create, in the order of creation, and the
    set of undeletable paths is the same. *)
Definition tracked (st st' : St) : Prop :=
  undeletable (world st') = undeletable (world st)
  /\ exists evs ts,
       trace (world st') = trace (world st) ++ evs
       /\ temp_files st' = temp_files st ++ ts
       /\ ts `sublist_of` created_names evs
       /\ unlinked_names evs = [].

Definition same_documents (st st' : St) : Prop :=
  documents st' = documents st.

Definition appends_documents (st st' : St) : Prop :=
  exists ds, documents st' = documents st ++ ds.

(** ** Further observations *)

(** [str(source)] for a path or a string; a byte buffer has none. *)
Definition str_source (source : Source) : option string :=
  match source with
  | src_Path p => Some p
  | src_str s => Some s
  | src_ByteStream _ => None
  end.

(** [not isinstance(source, ByteStream)]. *)
Definition is_path (source : Source) : bool :=
  match source with
  | src_ByteStream _ => false
  | _ => true
  end.

(** The conversions requested in a stretch of the trace: path and keyword
    arguments of each call, in order. *)
Definition convert_call_of (ev : Event) : option (string * gmap string PyVal) :=
  match ev with
  | ConvertCalled source kwargs => Some (source, kwargs)
  | _ => None
  end.

Definition convert_calls (evs : list Event) : list (string * gmap string PyVal) :=
  omap convert_call_of evs.

(** The items reported as skipped in a stretch of the trace, with the error
    of each, in order. *)
Definition warning_of (ev : Event) : option (Source * PyExc) :=
  match ev with
  | Logged WARNING (CouldNotProcess source error) => Some (source, error)
  | _ => None
  end.

Definition warned (evs : list Event) : list (Source * PyExc) :=
  omap warning_of evs.

(** A converter that leaves the file system as it finds it. *)
Definition read_only (c : DocumentConverter) : Prop :=
  forall source kwargs fs, snd (convert c source kwargs fs) = fs.

(** [silent g st st']: from [st] to [st'] the trace was extended by events
    none of which [g] observes. *)
Definition silent {B} (g : Event -> option B) (st st' : St) : Prop :=
  exists evs,
    trace (world st') = trace (world st) ++ evs /\ omap g evs = [].

(** From [st] to [st'] no temporary file was recorded and no name of the
    generator was used. *)
Definition no_temporary (st st' : St) : Prop :=
  temp_files st' = temp_files st /\ names (world st') = names (world st).

(** From [st] to [st'] the temporary files created did not exist in [st],
    and every other path holds what it held. *)
Definition files_kept (st st' : St) : Prop :=
  exists evs,
    trace (world st') = trace (world st) ++ evs
    /\ (forall p, p ∈ created_names evs -> files (world st) !! p = None)
    /\ (forall p, p ∉ created_names evs ->
                  files (world st') !! p = files (world st) !! p).

(** From [st] to [st'] every file of [st] and every temporary file created
    in between is still there in [st']. *)
Definition files_stay (st st' : St) : Prop :=
  exists evs,
    trace (world st') = trace (world st) ++ evs
    /\ (forall p, p ∈ created_names evs -> is_Some (files (world st') !! p))
    /\ (forall p, is_Some (files (world st) !! p) ->
                  is_Some (files (world st') !! p)).

(** [recorded st st']: when no write and no close fails in [st], none fails
    in [st'] and [temp_files] was extended by the name of every temporary
    file created in between. *)
Definition recorded (st st' : St) : Prop :=
  write_errors (world st) = ∅ ->
  close_errors (world st) = ∅ ->
  write_errors (world st') = ∅
  /\ close_errors (world st') = ∅
  /\ exists evs,
       trace (world st') = trace (world st) ++ evs
       /\ temp_files st' = temp_files st ++ created_names evs.

(** The same state with [ds] in front of [documents]. *)
Definition prefix_documents (ds : list Document.t) (st : St) : St :=
  mkSt (world st) (ds ++ documents st) (temp_files st).

(** A computation is framed when the records already in [documents] do not
    influence it and stay in front. *)
Definition framed {A} (m : M A) : Prop :=
  forall ds st,
    m (prefix_documents ds st) = (fst (m st), prefix_documents ds (snd (m st))).

(** A converter that is interrupted on ["stop.pdf"]. *)
Module Interrupt.

Definition converter : DocumentConverter :=
  {| convert source kwargs fs :=
       if String.eqb source "stop.pdf"
       then (Raise (BaseException "KeyboardInterrupt" ""), fs)
       else convert Mock.converter source kwargs fs |}.

Definition component (export_type : string) : DoclingConverter :=
  __init__ converter Mock.chunker None None export_type None None None.

End Interrupt.

(** A system without space left for the first temporary file. *)
Module Faulty.

Definition no_space : PyExc :=
  Exception "OSError" "[Errno 28] No space left on device".

Definition w_full : World :=
  Build_World ∅ ∅ ["/tmp/tmpa1b2c3d4"; "/tmp/tmpe5f6g7h8"] []
    {[ "/tmp/tmpa1b2c3d4.md" := no_space ]} ∅.

End Faulty.

(** * Properties *)

(** ** The default metadata extractor *)

(** C8: for every chunk, [MetaExtractor.extract_chunk_meta] returns the
    mapping whose single key ["dl_meta"] holds the chunk's own
    [export_json_dict()]; for every document, [extract_dl_doc_meta] returns
    the mapping whose single key ["dl_meta"] holds only the origin
    sub-structure when the document has an origin, and the empty mapping
    when it has none. *)
Theorem MetaExtractor_dl_meta :
  (forall chunk : BaseChunk,
      exists m, extract_chunk_meta MetaExtractor chunk = Return m
                /\ dom m = {[ "dl_meta" ]}
                /\ m !! "dl_meta" = Some (PyDict (export_json_dict chunk)))
  /\ (forall (dl_doc : DoclingDocument) (o : DocumentOrigin),
         origin dl_doc = Some o ->
         exists m, extract_dl_doc_meta MetaExtractor dl_doc = Return m
                   /\ dom m = {[ "dl_meta" ]}
                   /\ m !! "dl_meta" = Some (PyDict {[ "origin" := PyDict (model_dump o) ]}))
  /\ (forall dl_doc : DoclingDocument,
         origin dl_doc = None ->
         extract_dl_doc_meta MetaExtractor dl_doc = Return ∅).
Proof.
  repeat split.
  - intros c. eexists. split; [reflexivity|]. split.
    + apply dom_singleton_L.
    + apply lookup_singleton_eq.
  - intros d o Ho. simpl. rewrite Ho. eexists. split; [reflexivity|]. split.
    + apply dom_singleton_L.
    + apply lookup_singleton_eq.
  - intros d Ho. simpl. by rewrite Ho.
Qed.

Lemma MetaExtractor_dl_meta_witness :
  origin (Mock.dl_doc "# Docling" (Some Mock.the_origin)) = Some Mock.the_origin
  /\ origin (Mock.dl_doc "# Docling" None) = None
  /\ (exists m,
         extract_dl_doc_meta MetaExtractor
           (Mock.dl_doc "# Docling" (Some Mock.the_origin)) = Return m
         /\ dom m = {[ "dl_meta" ]}
         /\ m !! "dl_meta"
            = Some (PyDict {[ "origin" := PyDict (model_dump Mock.the_origin) ]}))
  /\ extract_dl_doc_meta MetaExtractor (Mock.dl_doc "# Docling" None) = Return ∅.
Proof.
  split; [reflexivity|]. split; [reflexivity|]. split.
  - apply (proj1 (proj2 MetaExtractor_dl_meta)). reflexivity.
  - apply (proj2 (proj2 MetaExtractor_dl_meta)). reflexivity.
Defined.

(** ** The empty batch *)

(** C9: on the empty input list [run] returns the mapping that binds
    ["documents"] to the empty list and leaves the world as it found it:
    the trace gains no event (no conversion, no temporary file, no removal)
    and the file system is unchanged. *)
Theorem run_empty_input (self : DoclingConverter) (w : World) :
  run self [] w = (Return {[ "documents" := [] ]}, w)
  /\ trace (snd (run self [] w)) = trace w
  /\ files (snd (run self [] w)) = files w.
Proof. repeat split. Qed.

(** ** Serialisation round trip *)

(** C7: [from_dict (to_dict self)] succeeds and builds an instance with the
    same conversion parameters and the same markdown export parameters as
    [self]; its converter, chunker and metadata extractor are the system
    defaults whatever [self] had, and so is its export type. *)
Theorem to_dict_from_dict_round_trip
    (default_converter : DocumentConverter) (default_chunker : BaseChunker)
    (self : DoclingConverter) :
  exists self',
    from_dict default_converter default_chunker (to_dict self) = Return self'
    /\ _convert_kwargs self' = _convert_kwargs self
    /\ _md_export_kwargs self' = _md_export_kwargs self
    /\ _converter self' = default_converter
    /\ _chunker self' = Some default_chunker
    /\ _meta_extractor self' = MetaExtractor
    /\ _export_type self' = ExportType_value DOC_CHUNKS.
Proof.
  exists (__init__ default_converter default_chunker None
            (Some (_convert_kwargs self)) (ExportType_value DOC_CHUNKS)
            (Some (_md_export_kwargs self)) None None).
  split; [|repeat split].
  unfold from_dict, to_dict, default_from_dict, default_to_dict.
  rewrite lookup_insert_eq. simpl.
  rewrite lookup_insert_ne by done. rewrite lookup_singleton_eq. simpl.
  unfold DoclingConverter_call.
  destruct (decide _) as [_|Hn].
  - rewrite !lookup_insert_eq.
    rewrite (lookup_insert_ne _ "convert_kwargs" "md_export_kwargs") by done.
    rewrite lookup_singleton_eq.
    rewrite !lookup_insert_ne by done.
    rewrite !lookup_singleton_ne by done.
    reflexivity.
  - exfalso. apply Hn. rewrite dom_insert_L, dom_singleton_L.
    unfold init_parameter_names.
    intros k. rewrite !elem_of_union, !elem_of_singleton. tauto.
Qed.

(** ** Reasoning about computations in [M] *)

Lemma string_app_empty_r (s : string) : s +:+ "" = s.
Proof.
  induction s as [|a s IH]; [reflexivity|].
  change (String a (s +:+ "") = String a s). by f_equal.
Qed.

Lemma bind_Return {A B} (m : M A) (k : A -> M B) st a st' :
  m st = (Return a, st') -> bind m k st = k a st'.
Proof. unfold bind. by intros ->. Qed.

Lemma bind_Raise {A B} (m : M A) (k : A -> M B) st e st' :
  m st = (Raise e, st') -> bind m k st = (Raise e, st').
Proof. unfold bind. by intros ->. Qed.

Lemma for__app {A} (xs ys : list A) (body : A -> M unit) st :
  for_ (xs ++ ys) body st = bind (for_ xs body) (fun _ => for_ ys body) st.
Proof.
  revert st. induction xs as [|x xs IH]; intros st; simpl.
  - reflexivity.
  - unfold bind. destruct (body x st) as [[[]|e] st1]; [|reflexivity].
    rewrite IH. reflexivity.
Qed.

(** A relation between the state before and after a computation that every
    step preserves is preserved by the control structures. *)
Section Steps.

Variable R : St -> St -> Prop.
Hypothesis R_refl : forall st, R st st.
Hypothesis R_trans : forall st1 st2 st3, R st1 st2 -> R st2 st3 -> R st1 st3.

Local Abbreviation steps := (steps R).

Lemma steps_ret {A} (a : A) : steps (ret a).
Proof. intros st. apply R_refl. Qed.

Lemma steps_raise {A} (e : PyExc) : steps (@raise A e).
Proof. intros st. apply R_refl. Qed.

Lemma steps_lift {A} (r : Res A) : steps (lift r).
Proof. intros st. apply R_refl. Qed.

Lemma steps_bind {A B} (m : M A) (k : A -> M B) :
  steps m -> (forall a, steps (k a)) -> steps (bind m k).
Proof.
  intros Hm Hk st. unfold bind. specialize (Hm st).
  destruct (m st) as [[a|e] st1]; simpl in *; [|exact Hm].
  eapply R_trans; [exact Hm | apply Hk].
Qed.

Lemma steps_try_except {A} (body : M A) (handler : PyExc -> M A) :
  steps body -> (forall e, steps (handler e)) -> steps (try_except body handler).
Proof.
  intros Hb Hh st. unfold try_except. specialize (Hb st).
  destruct (body st) as [[a|e] st1]; simpl in *; [exact Hb|].
  destruct (isinstance_Exception e); [|exact Hb].
  eapply R_trans; [exact Hb | apply Hh].
Qed.

Lemma steps_for_ {A} (xs : list A) (body : A -> M unit) :
  (forall x, steps (body x)) -> steps (for_ xs body).
Proof.
  intros Hb. induction xs as [|x xs IH]; simpl.
  - apply steps_ret.
  - apply steps_bind; [apply Hb | intros _; exact IH].
Qed.

End Steps.

(** *** Temporary names *)

Lemma _mkstemp_inner_Some stems suf fs name rest :
  _mkstemp_inner stems suf fs = Some (name, rest) ->
  fs !! name = None /\ exists stem, stem ∈ stems /\ name = stem +:+ suf.
Proof.
  revert name rest. induction stems as [|s stems IH]; intros name rest; simpl.
  - discriminate.
  - destruct (fs !! (s +:+ suf)) eqn:E.
    + intros H. destruct (IH _ _ H) as [Hf (stem & Hin & ->)].
      split; [exact Hf|]. exists stem. split; [by right | reflexivity].
    + intros [= <- <-]. split; [exact E|]. exists s. split; [by left | reflexivity].
Qed.


(** What [_handle_bytestream] does: it raises before anything is created
    (unusable suffix, no free name), or after the file was created (failed
    write, failed close), or returns the name of the file written. *)
Lemma _handle_bytestream_unfold (bs : ByteStream.t) (st : St) :
  _handle_bytestream bs st =
  match suffix_error
          (hd "" (names (world st)) +:+ default "" (bytestream_suffix bs))
          (default "" (bytestream_suffix bs)) with
  | Some e => (Raise e, st)
  | None =>
      match _mkstemp_inner (names (world st)) (default "" (bytestream_suffix bs))
              (files (world st)) with
      | None =>
          (Raise (FileExistsError "No usable temporary file name found"),
           set_world (set_names []) st)
      | Some (name, rest) =>
          match write_errors (world st) !! name with
          | Some e => (Raise e, created_state name rest st)
          | None =>
              match close_errors (world st) !! name with
              | Some e =>
                  (Raise e, written_state name rest (ByteStream.data bs) st)
              | None =>
                  (Return (name, true),
                   written_state name rest (ByteStream.data bs) st)
              end
          end
      end
  end.
Proof.
  unfold _handle_bytestream, bind, NamedTemporaryFile, write, close.
  destruct (suffix_error _ _) as [e|]; [reflexivity|].
  destruct (_mkstemp_inner _ _ _) as [[name rest]|]; [|reflexivity].
  simpl. destruct (write_errors (world st) !! name) as [e|]; [reflexivity|].
  simpl. unfold written_state.
  destruct (close_errors (world st) !! name) as [e|];
    unfold set_world, set_files, emit, set_names; simpl;
    by rewrite insert_insert_eq.
Qed.

(** The cases of [_handle_bytestream_unfold]. *)
Ltac handle_cases :=
  repeat match goal with
  | |- context [match suffix_error ?a ?b with _ => _ end] =>
      destruct (suffix_error a b) as [?e|] eqn:?Hsuffix
  | |- context [match _mkstemp_inner ?a ?b ?c with _ => _ end] =>
      destruct (_mkstemp_inner a b c) as [[?name ?rest]|] eqn:?Hstem
  | |- context [match write_errors ?w !! ?n with _ => _ end] =>
      destruct (write_errors w !! n) as [?e|] eqn:?Hwrite
  | |- context [match close_errors ?w !! ?n with _ => _ end] =>
      destruct (close_errors w !! n) as [?e|] eqn:?Hclose
  end.

Lemma _handle_bytestream_suffix_eq bs1 bs2 st :
  ByteStream.data bs1 = ByteStream.data bs2 ->
  bytestream_suffix bs1 = bytestream_suffix bs2 ->
  _handle_bytestream bs1 st = _handle_bytestream bs2 st.
Proof. intros Hd Hs. by rewrite !_handle_bytestream_unfold, Hd, Hs. Qed.

(** ** Empty file-extension hint *)

(** C10: when the metadata of a byte buffer maps [file_extension] to the
    empty string, [_handle_bytestream] computes no suffix and behaves in
    every state exactly as for the same buffer without the key; the name of
    the temporary file is then one of the proposed stems, with nothing
    appended. *)
Theorem _handle_bytestream_empty_extension (bs : ByteStream.t) :
  ByteStream.meta bs !! "file_extension" = Some (PyStr "") ->
  bytestream_suffix bs = None
  /\ (forall st,
        _handle_bytestream bs st
        = _handle_bytestream
            (ByteStream.mk (ByteStream.data bs)
                           (delete "file_extension" (ByteStream.meta bs))) st)
  /\ (forall st name is_temp st',
        _handle_bytestream bs st = (Return (name, is_temp), st') ->
        name ∈ names (world st)).
Proof.
  intros Hext.
  assert (Hsuf : bytestream_suffix bs = None).
  { unfold bytestream_suffix. by rewrite Hext. }
  split; [exact Hsuf|]. split.
  - intros st. apply _handle_bytestream_suffix_eq; [done|].
    rewrite Hsuf. unfold bytestream_suffix. simpl.
    by rewrite lookup_delete_eq.
  - intros st name is_temp st'. rewrite _handle_bytestream_unfold, Hsuf.
    handle_cases; try discriminate.
    intros [= <- _ _].
    destruct (_mkstemp_inner_Some _ _ _ _ _ Hstem) as [_ (stem & Hin & ->)].
    simpl. by rewrite string_app_empty_r.
Qed.

Lemma _handle_bytestream_empty_extension_witness :
  ByteStream.meta Mock.bytestream_empty_extension !! "file_extension"
  = Some (PyStr "")
  /\ bytestream_suffix Mock.bytestream_empty_extension = None
  /\ "/tmp/tmpa1b2c3d4" ∈ names (world Mock.st0).
Proof.
  assert (Hext : ByteStream.meta Mock.bytestream_empty_extension
                   !! "file_extension" = Some (PyStr "")).
  { vm_compute. reflexivity. }
  split; [exact Hext|]. split.
  - exact (proj1 (_handle_bytestream_empty_extension _ Hext)).
  - apply (proj2 (proj2 (_handle_bytestream_empty_extension _ Hext))
             Mock.st0 "/tmp/tmpa1b2c3d4" true
             (snd (_handle_bytestream Mock.bytestream_empty_extension Mock.st0))).
    vm_compute. reflexivity.
Defined.

(** *** Effects of the steps of [run] on the trace and the local lists *)

Lemma tracked_refl st : tracked st st.
Proof.
  split; [reflexivity|]. exists [], []. by rewrite !app_nil_r.
Qed.

Lemma tracked_same st st' :
  undeletable (world st') = undeletable (world st) ->
  trace (world st') = trace (world st) ->
  temp_files st' = temp_files st ->
  tracked st st'.
Proof.
  intros Hu Ht Hf. split; [exact Hu|]. exists [], []. by rewrite !app_nil_r.
Qed.

Lemma tracked_trans st1 st2 st3 : tracked st1 st2 -> tracked st2 st3 -> tracked st1 st3.
Proof.
  intros [Hu1 (evs1 & ts1 & Ht1 & Hf1 & Hs1 & Hn1)]
         [Hu2 (evs2 & ts2 & Ht2 & Hf2 & Hs2 & Hn2)].
  split; [congruence|]. exists (evs1 ++ evs2), (ts1 ++ ts2).
  rewrite Ht2, Ht1, Hf2, Hf1. unfold created_names, unlinked_names in *.
  rewrite !omap_app, Hn1, Hn2, !app_assoc. repeat split; try done.
  by apply sublist_app.
Qed.

Lemma tracked_event st st' ev :
  undeletable (world st') = undeletable (world st) ->
  trace (world st') = trace (world st) ++ [ev] ->
  temp_files st' = temp_files st ++ created_names [ev] ->
  unlinked_names [ev] = [] ->
  tracked st st'.
Proof.
  intros Hu Ht Hf Hn. split; [exact Hu|]. by exists [ev], (created_names [ev]).
Qed.

(** A temporary file that was created and not recorded. *)
Lemma tracked_unrecorded st st' name :
  undeletable (world st') = undeletable (world st) ->
  trace (world st') = trace (world st) ++ [TempFileCreated name] ->
  temp_files st' = temp_files st ->
  tracked st st'.
Proof.
  intros Hu Ht Hf. split; [exact Hu|]. exists [TempFileCreated name], [].
  rewrite app_nil_r. repeat split; try done. apply sublist_nil_l.
Qed.

Ltac tracked_by ev :=
  apply (tracked_event _ _ ev); simpl; rewrite ?app_nil_r; reflexivity.

Lemma same_documents_trans st1 st2 st3 :
  same_documents st1 st2 -> same_documents st2 st3 -> same_documents st1 st3.
Proof. unfold same_documents. congruence. Qed.

Lemma appends_documents_refl st : appends_documents st st.
Proof. exists []. by rewrite app_nil_r. Qed.

Lemma appends_documents_trans st1 st2 st3 :
  appends_documents st1 st2 -> appends_documents st2 st3 -> appends_documents st1 st3.
Proof.
  intros [ds1 H1] [ds2 H2]. exists (ds1 ++ ds2). by rewrite H2, H1, app_assoc.
Qed.

Lemma same_appends_documents st st' : same_documents st st' -> appends_documents st st'.
Proof. intros H. exists []. by rewrite app_nil_r. Qed.

Lemma normalise_bytestream_unfold (bs : ByteStream.t) (st : St) :
  normalise_bytestream bs st =
  match suffix_error
          (hd "" (names (world st)) +:+ default "" (bytestream_suffix bs))
          (default "" (bytestream_suffix bs)) with
  | Some e => (Raise e, st)
  | None =>
      match _mkstemp_inner (names (world st)) (default "" (bytestream_suffix bs))
              (files (world st)) with
      | None =>
          (Raise (FileExistsError "No usable temporary file name found"),
           set_world (set_names []) st)
      | Some (name, rest) =>
          match write_errors (world st) !! name with
          | Some e => (Raise e, created_state name rest st)
          | None =>
              match close_errors (world st) !! name with
              | Some e =>
                  (Raise e, written_state name rest (ByteStream.data bs) st)
              | None =>
                  (Return name,
                   mkSt (world (written_state name rest (ByteStream.data bs) st))
                        (documents st) (temp_files st ++ [name]))
              end
          end
      end
  end.
Proof.
  unfold normalise_bytestream, bind. rewrite _handle_bytestream_unfold.
  by handle_cases.
Qed.

Lemma normalise_bytestream_tracked bs : steps tracked (normalise_bytestream bs).
Proof.
  intros st. rewrite normalise_bytestream_unfold. handle_cases; simpl.
  - apply tracked_refl.
  - by apply (tracked_unrecorded _ _ name).
  - by apply (tracked_unrecorded _ _ name).
  - tracked_by (TempFileCreated name).
  - by apply tracked_same.
Qed.

Lemma normalise_bytestream_documents bs : steps same_documents (normalise_bytestream bs).
Proof.
  intros st. rewrite normalise_bytestream_unfold. by handle_cases.
Qed.

Lemma call_convert_tracked c filepath kwargs :
  steps tracked (call_convert c filepath kwargs).
Proof.
  intros st. unfold call_convert.
  destruct (convert _ _ _ _) as [r fs]. simpl.
  tracked_by (ConvertCalled filepath kwargs).
Qed.

Lemma call_convert_documents c filepath kwargs :
  steps same_documents (call_convert c filepath kwargs).
Proof.
  intros st. unfold call_convert. by destruct (convert _ _ _ _) as [r fs].
Qed.

Lemma log_tracked level record : steps tracked (log level record).
Proof. intros st. tracked_by (Logged level record). Qed.

Lemma documents_extend_tracked ds : steps tracked (documents_extend ds).
Proof. intros st. by apply tracked_same. Qed.

Lemma documents_append_tracked d : steps tracked (documents_append d).
Proof. intros st. by apply tracked_same. Qed.

Lemma convert_source_eq self source :
  convert_source self source =
  (filepath <-
     match source with
     | src_ByteStream bs => normalise_bytestream bs
     | src_Path p => ret p
     | src_str s => ret s
     end ;;
   res <- call_convert (_converter self) filepath (_convert_kwargs self) ;;
   ret (document res)).
Proof. by destruct source. Qed.

Lemma convert_source_tracked self source : steps tracked (convert_source self source).
Proof.
  rewrite convert_source_eq.
  apply steps_bind; [apply tracked_trans | |].
  - destruct source; [apply steps_ret, tracked_refl..|].
    apply normalise_bytestream_tracked.
  - intros filepath.
    apply steps_bind; [apply tracked_trans | |].
    + apply call_convert_tracked.
    + intros res. apply steps_ret, tracked_refl.
Qed.

Lemma convert_source_documents self source :
  steps same_documents (convert_source self source).
Proof.
  rewrite convert_source_eq.
  apply steps_bind; [apply same_documents_trans | |].
  - destruct source; [done..|]. apply normalise_bytestream_documents.
  - intros filepath. apply steps_bind; [apply same_documents_trans | |].
    + apply call_convert_documents.
    + done.
Qed.

Lemma export_document_tracked self dl_doc : steps tracked (export_document self dl_doc).
Proof.
  unfold export_document. repeat case_match;
    repeat (first
      [ apply steps_ret, tracked_refl
      | apply steps_raise, tracked_refl
      | apply steps_lift, tracked_refl
      | apply documents_extend_tracked
      | apply documents_append_tracked
      | apply steps_bind; [apply tracked_trans | | intros ?] ]).
Qed.

Lemma export_document_appends self dl_doc :
  steps appends_documents (export_document self dl_doc).
Proof.
  unfold export_document. repeat case_match;
    repeat (first
      [ apply steps_ret, appends_documents_refl
      | apply steps_raise, appends_documents_refl
      | apply steps_lift, appends_documents_refl
      | (intros st; by eexists)
      | apply steps_bind; [apply appends_documents_trans | | intros ?] ]).
Qed.

Lemma process_source_tracked self source : steps tracked (process_source self source).
Proof.
  apply steps_bind; [apply tracked_trans | |].
  - apply convert_source_tracked.
  - intros dl_doc. apply export_document_tracked.
Qed.

Lemma process_source_appends self source :
  steps appends_documents (process_source self source).
Proof.
  apply steps_bind; [apply appends_documents_trans | |].
  - intros st. apply same_appends_documents, convert_source_documents.
  - intros dl_doc. apply export_document_appends.
Qed.

Lemma run_item_tracked self source : steps tracked (run_item self source).
Proof.
  apply steps_try_except; [apply tracked_trans | |].
  - apply process_source_tracked.
  - intros e. apply log_tracked.
Qed.

Lemma run_item_appends self source : steps appends_documents (run_item self source).
Proof.
  apply steps_try_except; [apply appends_documents_trans | |].
  - apply process_source_appends.
  - intros e st. exists []. simpl. by rewrite app_nil_r.
Qed.

(** The inner handler lets through only what does not derive from
    [Exception]. *)
Lemma run_item_Raise self source st e st' :
  run_item self source st = (Raise e, st') -> isinstance_Exception e = false.
Proof.
  unfold run_item, try_except.
  destruct (process_source self source st) as [[[]|e0] st1]; [discriminate|].
  destruct (isinstance_Exception e0) eqn:E; [discriminate|]. by intros [= <- _].
Qed.

Lemma run_item_documents self source st :
  documents (snd (run_item self source st))
  = documents st ++ item_records self source st.
Proof.
  unfold item_records. destruct (run_item_appends self source st) as [ds ->].
  by rewrite drop_app_length.
Qed.

Lemma for__run_item_tracked self paths : steps tracked (for_ paths (run_item self)).
Proof.
  apply steps_for_; [apply tracked_refl | apply tracked_trans |].
  intros source. apply run_item_tracked.
Qed.

Lemma run_try_unfold self paths st :
  run_try self paths st =
  match for_ paths (run_item self) st with
  | (Return _, st') => (Return {[ "documents" := documents st' ]}, st')
  | (Raise e, st') => (Raise e, st')
  end.
Proof. unfold run_try, bind. by destruct (for_ _ _ _) as [[[]|e] st']. Qed.

Lemma run_try_snd self paths st :
  snd (run_try self paths st) = snd (for_ paths (run_item self) st).
Proof. rewrite run_try_unfold. by destruct (for_ _ _ _) as [[[]|e] st']. Qed.

(** *** The [finally] block *)

(** One removal: the file is gone, or it is left in place and a DEBUG
    record says so. *)
Lemma cleanup_item_spec (x : string) (st : St) :
  exists st' evs,
    cleanup_item x st = (Return tt, st')
    /\ documents st' = documents st
    /\ temp_files st' = temp_files st
    /\ undeletable (world st') = undeletable (world st)
    /\ trace (world st') = trace (world st) ++ UnlinkCalled x :: evs
    /\ ((evs = [] /\ files (world st') = delete x (files (world st))
         /\ x ∉ undeletable (world st))
        \/ (exists e, evs = [Logged DEBUG (FailedToDelete x e)]
                      /\ files (world st') = files (world st)
                      /\ (files (world st) !! x = None
                          \/ x ∈ undeletable (world st)))).
Proof.
  unfold cleanup_item, try_except, unlink. simpl.
  destruct (files (world st) !! x) eqn:E.
  - destruct (decide (x ∈ undeletable (world st))) as [Hin|Hnin].
    + simpl. eexists _, _. repeat split; [|right; eexists; repeat split; by right].
      simpl. by rewrite <- app_assoc.
    + eexists _, []. repeat split. by left.
  - simpl. eexists _, _. repeat split; [|right; eexists; repeat split; by left].
    simpl. by rewrite <- app_assoc.
Qed.

Lemma cleanup_loop_spec (l : list string) (st : St) :
  exists st' evs,
    for_ l cleanup_item st = (Return tt, st')
    /\ documents st' = documents st
    /\ temp_files st' = temp_files st
    /\ undeletable (world st') = undeletable (world st)
    /\ trace (world st') = trace (world st) ++ evs
    /\ unlinked_names evs = l
    /\ created_names evs = []
    /\ forallb is_cleanup_event evs = true
    /\ (forall n, files (world st) !! n = None -> files (world st') !! n = None)
    /\ (forall n, n ∈ l -> n ∉ undeletable (world st) ->
                  files (world st') !! n = None)
    /\ (forall n, n ∈ l -> is_Some (files (world st') !! n) ->
                  exists e, Logged DEBUG (FailedToDelete n e) ∈ evs).
Proof.
  revert st. induction l as [|x l IH]; intros st.
  - exists st, []. simpl. rewrite app_nil_r. repeat split; try done.
    + intros n Hn. by apply elem_of_nil in Hn.
    + intros n Hn. by apply elem_of_nil in Hn.
  - destruct (cleanup_item_spec x st)
      as (st1 & evs1 & Hrun1 & Hd1 & Ht1 & Hu1 & Htr1 & Hcase).
    destruct (IH st1)
      as (st2 & evs2 & Hrun2 & Hd2 & Ht2 & Hu2 & Htr2 & Hun2 & Hcr2 & Hall2
          & Hmono2 & Hgone2 & Hlog2).
    assert (Hmono1 : forall n, files (world st) !! n = None ->
                               files (world st1) !! n = None).
    { intros n Hn. destruct Hcase as [(_ & -> & _)|(e & _ & -> & _)]; [|done].
      rewrite lookup_delete_None. by right. }
    assert (Hevs1 : unlinked_names evs1 = [] /\ created_names evs1 = []
                    /\ forallb is_cleanup_event evs1 = true).
    { by destruct Hcase as [(-> & _)|(e & -> & _)]. }
    destruct Hevs1 as (Hun1 & Hcr1 & Hall1).
    exists st2, (UnlinkCalled x :: evs1 ++ evs2).
    simpl. unfold bind. rewrite Hrun1, Hrun2.
    repeat split; try congruence.
    + rewrite Htr2, Htr1. by rewrite <- app_assoc.
    + unfold unlinked_names in *. simpl. by rewrite omap_app, Hun1, Hun2.
    + unfold created_names in *. simpl. by rewrite omap_app, Hcr1, Hcr2.
    + by rewrite forallb_app, Hall1, Hall2.
    + intros n Hn. by apply Hmono2, Hmono1.
    + intros n Hn Hdel. apply elem_of_cons in Hn as [->|Hn].
      * destruct Hcase as [(_ & Hf & _)|(e & _ & Hf & [Hnone|Hin])].
        -- apply Hmono2. rewrite Hf. apply lookup_delete_eq.
        -- apply Hmono2. by rewrite Hf.
        -- done.
      * apply Hgone2; [done | by rewrite Hu1].
    + intros n Hn Hsome. apply elem_of_cons in Hn as [->|Hn].
      * destruct Hcase as [(_ & Hf & _)|(e & -> & _)].
        -- exfalso. assert (files (world st2) !! x = None) as Hnone.
           { apply Hmono2. rewrite Hf. apply lookup_delete_eq. }
           rewrite Hnone in Hsome. by destruct Hsome.
        -- exists e. right. left.
      * destruct (Hlog2 n Hn Hsome) as [e He]. exists e.
        right. apply elem_of_app. by right.
Qed.

Lemma cleanup_spec (st : St) :
  exists st' evs,
    cleanup st = (Return tt, st')
    /\ documents st' = documents st
    /\ undeletable (world st') = undeletable (world st)
    /\ trace (world st') = trace (world st) ++ evs
    /\ unlinked_names evs = temp_files st
    /\ created_names evs = []
    /\ forallb is_cleanup_event evs = true
    /\ (forall n, n ∈ temp_files st -> n ∉ undeletable (world st) ->
                  files (world st') !! n = None)
    /\ (forall n, n ∈ temp_files st -> is_Some (files (world st') !! n) ->
                  exists e, Logged DEBUG (FailedToDelete n e) ∈ evs).
Proof.
  destruct (cleanup_loop_spec (temp_files st) st)
    as (st' & evs & H1 & H2 & H3 & H4 & H5 & H6 & H7 & H8 & H9 & H10 & H11).
  exists st', evs. unfold cleanup. by repeat split.
Qed.

(** [run] is its [try] block followed by the [finally] block, which
    neither raises nor touches the result. *)
Lemma run_unfold self paths w :
  run self paths w =
  (fst (run_try self paths (mkSt w [] [])),
   world (snd (cleanup (snd (run_try self paths (mkSt w [] [])))))).
Proof.
  unfold run, try_finally.
  destruct (run_try self paths (mkSt w [] [])) as [r st]. simpl.
  destruct (cleanup_spec st) as (st' & evs & -> & _). reflexivity.
Qed.

Lemma run_try_state_tracked self paths w :
  tracked (mkSt w [] []) (run_try_state self paths w).
Proof.
  unfold run_try_state. rewrite run_try_snd. apply for__run_item_tracked.
Qed.

(** ** A temporary file that is never removed *)

(** C5 (the code does not do what the claim says): on a system on which the
    write to the temporary file fails for lack of space, [run] on one byte
    buffer creates ["/tmp/tmpa1b2c3d4.md"], catches the error of the write
    in the handler of the loop iteration, logs it as a WARNING and returns
    an empty list of documents; the name was never recorded in [temp_files],
    so the [finally] block attempts no removal and the file is still there
    when [run] ends. *)
Theorem run_leaks_temporary_file_on_failed_write :
  run (Mock.component "markdown") [src_ByteStream Mock.bytestream] Faulty.w_full
  = (Return {[ "documents" := [] ]},
     Build_World {[ "/tmp/tmpa1b2c3d4.md" := [] ]} ∅ ["/tmp/tmpe5f6g7h8"]
       [TempFileCreated "/tmp/tmpa1b2c3d4.md";
        Logged WARNING
          (CouldNotProcess (src_ByteStream Mock.bytestream) Faulty.no_space)]
       {[ "/tmp/tmpa1b2c3d4.md" := Faulty.no_space ]} ∅).
Proof. vm_compute. reflexivity. Qed.

(** *** A loop iteration that normalises a byte buffer *)



Lemma _handle_bytestream_normalise bs st name is_temp st' :
  _handle_bytestream bs st = (Return (name, is_temp), st') ->
  is_temp = true
  /\ normalise_bytestream bs st
     = (Return name, mkSt (world st') (documents st') (temp_files st' ++ [name])).
Proof.
  rewrite normalise_bytestream_unfold, _handle_bytestream_unfold.
  handle_cases; try discriminate.
  by intros [= <- <- <-].
Qed.



(** ** Normalisation of a byte buffer *)



(** *** The records a run returns *)

Lemma per_item_records_length self paths st :
  length (per_item_records self paths st) = length paths.
Proof.
  revert st. induction paths as [|s rest IH]; intros st; simpl;
    [reflexivity | by rewrite IH].
Qed.

Lemma per_item_records_app self pre rest st0 st :
  for_ pre (run_item self) st0 = (Return tt, st) ->
  per_item_records self (pre ++ rest) st0
  = per_item_records self pre st0 ++ per_item_records self rest st.
Proof.
  revert st0. induction pre as [|s pre IH]; intros st0; simpl.
  - by intros [= ->].
  - unfold bind. destruct (run_item self s st0) as [[[]|e] s1]; [|discriminate].
    simpl. intros H. by rewrite (IH _ H).
Qed.

(** The loop returns [documents] extended by the records of the items, in
    input order, unless an error that is no [Exception] escapes. *)
Lemma run_try_documents self paths st :
  match fst (run_try self paths st) with
  | Return res =>
      res = {[ "documents" :=
                 documents st ++ concat (per_item_records self paths st) ]}
  | Raise e => isinstance_Exception e = false
  end.
Proof.
  rewrite run_try_unfold. revert st.
  induction paths as [|s rest IH]; intros st; simpl.
  - by rewrite app_nil_r.
  - unfold bind. pose proof (run_item_documents self s st) as Hdocs.
    destruct (run_item self s st) as [[[]|e] st1] eqn:E; simpl in *.
    + specialize (IH st1).
      destruct (for_ rest (run_item self) st1) as [[[]|e] st2]; simpl in *;
        [|exact IH].
      by rewrite IH, Hdocs, app_assoc.
    + eapply run_item_Raise. exact E.
Qed.

Lemma run_documents self paths w :
  match fst (run self paths w) with
  | Return res =>
      res = {[ "documents" := concat (per_item_records self paths (mkSt w [] [])) ]}
  | Raise e => isinstance_Exception e = false
  end.
Proof. rewrite run_unfold. apply (run_try_documents self paths (mkSt w [] [])). Qed.

(** A branch on the export type that raises has changed nothing. *)
Lemma export_document_Raise self dl_doc st e st' :
  export_document self dl_doc st = (Raise e, st') -> st' = st.
Proof.
  unfold export_document, bind, lift, raise, ret.
  repeat case_match; simplify_eq; try done; by intros [= _ <-].
Qed.

Lemma process_source_Raise_documents self source st e st' :
  process_source self source st = (Raise e, st') -> documents st' = documents st.
Proof.
  unfold process_source, bind.
  pose proof (convert_source_documents self source st) as Hc.
  destruct (convert_source self source st) as [[d|e0] st1]; simpl in Hc.
  - intros H. apply export_document_Raise in H. by subst.
  - by intros [= _ <-].
Qed.

(** The records of one item, by the outcome of its conversion and of the
    export of the converted document. *)
Lemma item_records_unfold self source st :
  item_records self source st =
  match convert_source self source st with
  | (Return dl_doc, st1) =>
      drop (length (documents st1)) (documents (snd (export_document self dl_doc st1)))
  | (Raise _, _) => []
  end.
Proof.
  unfold item_records, run_item, try_except, process_source, bind.
  pose proof (convert_source_documents self source st) as Hc.
  destruct (convert_source self source st) as [[d|e0] st1]; simpl in Hc.
  - rewrite <- Hc.
    destruct (export_document self d st1) as [[[]|e] st2] eqn:E; [done|].
    apply export_document_Raise in E. subst.
    destruct (isinstance_Exception e); simpl; by rewrite drop_all.
  - destruct (isinstance_Exception e0); simpl; by rewrite Hc, drop_all.
Qed.

Lemma item_records_doc_chunks self chunker source st :
  _export_type self = ExportType_value DOC_CHUNKS ->
  _chunker self = Some chunker ->
  item_records self source st =
  match convert_source self source st with
  | (Return dl_doc, _) =>
      match chunk_documents chunker (_meta_extractor self) (chunk chunker dl_doc) with
      | Return ds => ds
      | Raise _ => []
      end
  | (Raise _, _) => []
  end.
Proof.
  intros Hmode Hchunker. rewrite item_records_unfold.
  destruct (convert_source self source st) as [[d|e0] st1]; [|done].
  unfold export_document, bind, lift, ret. rewrite Hmode, Hchunker. simpl.
  destruct (chunk_documents _ _ _); simpl; by rewrite ?drop_app_length, ?drop_all.
Qed.

Lemma item_records_markdown self source st :
  _export_type self = ExportType_value MARKDOWN ->
  item_records self source st =
  match convert_source self source st with
  | (Return dl_doc, _) =>
      match export_to_markdown dl_doc (_md_export_kwargs self) with
      | Return content =>
          match extract_dl_doc_meta (_meta_extractor self) dl_doc with
          | Return meta => [Document.mk content meta]
          | Raise _ => []
          end
      | Raise _ => []
      end
  | (Raise _, _) => []
  end.
Proof.
  intros Hmode. rewrite item_records_unfold.
  destruct (convert_source self source st) as [[d|e0] st1]; [|done].
  unfold export_document, bind, lift, ret. rewrite Hmode. simpl.
  destruct (export_to_markdown _ _); simpl; [|by rewrite drop_all].
  destruct (extract_dl_doc_meta _ _); simpl;
    by rewrite ?drop_app_length, ?drop_all.
Qed.

Lemma item_records_unexpected self source st :
  _export_type self <> ExportType_value DOC_CHUNKS ->
  _export_type self <> ExportType_value MARKDOWN ->
  item_records self source st = [].
Proof.
  intros H1 H2. rewrite item_records_unfold.
  destruct (convert_source self source st) as [[d|e0] st1]; [|done].
  unfold export_document.
  apply String.eqb_neq in H1, H2. rewrite H1, H2. simpl. by rewrite drop_all.
Qed.

(** The comprehension over an iterator that yields [chunks] and stops. *)
Lemma chunk_documents_Forall2 chunker extractor chunks docs :
  Forall2 (fun c d =>
             serialize chunker c = Return (Document.content d)
             /\ extract_chunk_meta extractor c = Return (Document.meta d))
          chunks docs ->
  chunk_documents chunker extractor (iter_of_list chunks) = Return docs.
Proof.
  induction 1 as [|c d chunks docs [Hs Hm] _ IH]; simpl; [reflexivity|].
  rewrite Hs, Hm, IH. simpl. by destruct d.
Qed.

(** ** Export of chunks *)

(** C3: in chunked export mode, [run] returns the concatenation, in input
    order, of the records of the input items (one entry per item), unless an
    error that is no [Exception] aborts the batch.  The records of an item
    whose conversion gives [dl_doc] and whose chunker yields [chunks] are
    one record per chunk, in chunk order, whose content is the chunker's
    serialisation of the chunk and whose metadata is the extractor's
    [extract_chunk_meta] of it; an item that fails contributes none. *)
Theorem run_doc_chunks_records (self : DoclingConverter) (chunker : BaseChunker) :
  _export_type self = ExportType_value DOC_CHUNKS ->
  _chunker self = Some chunker ->
  (forall paths w,
      match fst (run self paths w) with
      | Return res =>
          res = {[ "documents" :=
                     concat (per_item_records self paths (mkSt w [] [])) ]}
      | Raise e => isinstance_Exception e = false
      end)
  /\ (forall paths st, length (per_item_records self paths st) = length paths)
  /\ (forall source st dl_doc st1 chunks docs,
         convert_source self source st = (Return dl_doc, st1) ->
         chunk chunker dl_doc = iter_of_list chunks ->
         Forall2 (fun c d =>
                    serialize chunker c = Return (Document.content d)
                    /\ extract_chunk_meta (_meta_extractor self) c
                       = Return (Document.meta d))
                 chunks docs ->
         item_records self source st = docs)
  /\ (forall source st dl_doc st1 e,
         convert_source self source st = (Return dl_doc, st1) ->
         chunk_documents chunker (_meta_extractor self) (chunk chunker dl_doc)
         = Raise e ->
         item_records self source st = [])
  /\ (forall source st e st1,
         convert_source self source st = (Raise e, st1) ->
         item_records self source st = []).
Proof.
  intros Hmode Hchunker. split; [|split; [|split; [|split]]].
  - intros paths w. apply run_documents.
  - apply per_item_records_length.
  - intros source st dl_doc st1 chunks docs Hc Hiter Hall.
    rewrite (item_records_doc_chunks _ _ _ _ Hmode Hchunker), Hc, Hiter.
    by rewrite (chunk_documents_Forall2 _ _ _ _ Hall).
  - intros source st dl_doc st1 e Hc He.
    by rewrite (item_records_doc_chunks _ _ _ _ Hmode Hchunker), Hc, He.
  - intros source st e st1 Hc.
    by rewrite (item_records_doc_chunks _ _ _ _ Hmode Hchunker), Hc.
Qed.

Lemma run_doc_chunks_records_witness :
  _export_type (Mock.component "doc_chunks") = ExportType_value DOC_CHUNKS
  /\ _chunker (Mock.component "doc_chunks") = Some Mock.chunker
  /\ convert_source (Mock.component "doc_chunks") (src_str "foo.pdf") Mock.st0
     = (Return Mock.the_dl_doc,
        snd (convert_source (Mock.component "doc_chunks") (src_str "foo.pdf")
               Mock.st0))
  /\ chunk Mock.chunker Mock.the_dl_doc
     = iter_of_list [Mock.chunk_of "Docling"; Mock.chunk_of "Report"]
  /\ item_records (Mock.component "doc_chunks") (src_str "foo.pdf") Mock.st0
     = [Document.mk "Docling"
          {[ "dl_meta" := PyDict (export_json_dict (Mock.chunk_of "Docling")) ]};
        Document.mk "Report"
          {[ "dl_meta" := PyDict (export_json_dict (Mock.chunk_of "Report")) ]}].
Proof.
  assert (Hc : convert_source (Mock.component "doc_chunks") (src_str "foo.pdf")
                 Mock.st0
               = (Return Mock.the_dl_doc,
                  snd (convert_source (Mock.component "doc_chunks")
                         (src_str "foo.pdf") Mock.st0))).
  { vm_compute. reflexivity. }
  split; [reflexivity|]. split; [reflexivity|]. split; [exact Hc|].
  split; [reflexivity|].
  apply (proj1 (proj2 (proj2
           (run_doc_chunks_records (Mock.component "doc_chunks") Mock.chunker
              eq_refl eq_refl)))
           _ _ _ _ [Mock.chunk_of "Docling"; Mock.chunk_of "Report"] _ Hc eq_refl).
  repeat constructor.
Defined.

(** ** Export of whole documents *)

(** C4: in markdown export mode, [run] returns the concatenation, in input
    order, of the records of the input items (one entry per item), unless an
    error that is no [Exception] aborts the batch.  An item whose
    conversion gives [dl_doc], whose markdown export under
    [_md_export_kwargs] gives [content] and whose [extract_dl_doc_meta] gives
    [meta] contributes exactly the record [(content, meta)]; no item
    contributes more than one record, and an item whose conversion fails
    contributes none. *)
Theorem run_markdown_records (self : DoclingConverter) :
  _export_type self = ExportType_value MARKDOWN ->
  (forall paths w,
      match fst (run self paths w) with
      | Return res =>
          res = {[ "documents" :=
                     concat (per_item_records self paths (mkSt w [] [])) ]}
      | Raise e => isinstance_Exception e = false
      end)
  /\ (forall paths st, length (per_item_records self paths st) = length paths)
  /\ (forall source st dl_doc st1 content meta,
         convert_source self source st = (Return dl_doc, st1) ->
         export_to_markdown dl_doc (_md_export_kwargs self) = Return content ->
         extract_dl_doc_meta (_meta_extractor self) dl_doc = Return meta ->
         item_records self source st = [Document.mk content meta])
  /\ (forall source st, length (item_records self source st) <= 1)
  /\ (forall source st e st1,
         convert_source self source st = (Raise e, st1) ->
         item_records self source st = []).
Proof.
  intros Hmode. split; [|split; [|split; [|split]]].
  - intros paths w. apply run_documents.
  - apply per_item_records_length.
  - intros source st dl_doc st1 content meta Hc Hmd Hmeta.
    by rewrite (item_records_markdown _ _ _ Hmode), Hc, Hmd, Hmeta.
  - intros source st. rewrite (item_records_markdown _ _ _ Hmode).
    repeat case_match; simpl; lia.
  - intros source st e st1 Hc.
    by rewrite (item_records_markdown _ _ _ Hmode), Hc.
Qed.

Lemma run_markdown_records_witness :
  _export_type (Mock.component "markdown") = ExportType_value MARKDOWN
  /\ convert_source (Mock.component "markdown") (src_str "foo.pdf") Mock.st0
     = (Return Mock.the_dl_doc,
        snd (convert_source (Mock.component "markdown") (src_str "foo.pdf")
               Mock.st0))
  /\ item_records (Mock.component "markdown") (src_str "foo.pdf") Mock.st0
     = [Document.mk "# Docling"
          {[ "dl_meta" := PyDict {[ "origin" := PyDict (model_dump Mock.the_origin) ]} ]}].
Proof.
  assert (Hc : convert_source (Mock.component "markdown") (src_str "foo.pdf")
                 Mock.st0
               = (Return Mock.the_dl_doc,
                  snd (convert_source (Mock.component "markdown")
                         (src_str "foo.pdf") Mock.st0))).
  { vm_compute. reflexivity. }
  split; [reflexivity|]. split; [exact Hc|].
  exact (proj1 (proj2 (proj2
           (run_markdown_records (Mock.component "markdown") eq_refl)))
           _ _ _ _ _ _ Hc eq_refl eq_refl).
Defined.

(** ** Isolation of a failing item *)

(** C2: when the processing of an item [x], reached after the items [pre],
    raises an [Exception] [e] (in normalisation, conversion, chunking or
    export, or metadata extraction), the loop iteration catches it, logs a
    WARNING naming [x] and [e], leaves [documents] as it was, and the loop
    goes on with the remaining items [post]: the batch returns the records
    of [pre] followed by the records of [post], unless a later error that
    is no [Exception] aborts it. *)
Theorem run_item_error_isolated
    (self : DoclingConverter) (pre post : list Source) (x : Source)
    (w : World) (st st_x : St) (e : PyExc) :
  for_ pre (run_item self) (mkSt w [] []) = (Return tt, st) ->
  process_source self x st = (Raise e, st_x) ->
  isinstance_Exception e = true ->
  run_item self x st
  = (Return tt, set_world (emit (Logged WARNING (CouldNotProcess x e))) st_x)
  /\ documents (set_world (emit (Logged WARNING (CouldNotProcess x e))) st_x)
     = documents st
  /\ item_records self x st = []
  /\ run_try self (pre ++ x :: post) (mkSt w [] [])
     = run_try self post
         (set_world (emit (Logged WARNING (CouldNotProcess x e))) st_x)
  /\ match fst (run self (pre ++ x :: post) w) with
     | Return res =>
         res = {[ "documents" :=
                    concat (per_item_records self pre (mkSt w [] []))
                    ++ concat (per_item_records self post
                                 (set_world
                                    (emit (Logged WARNING (CouldNotProcess x e)))
                                    st_x)) ]}
     | Raise e' => isinstance_Exception e' = false
     end.
Proof.
  intros Hpre Hx He.
  assert (Hitem : run_item self x st
                  = (Return tt,
                     set_world (emit (Logged WARNING (CouldNotProcess x e))) st_x)).
  { unfold run_item, try_except. by rewrite Hx, He. }
  assert (Hdocs : documents
                    (set_world (emit (Logged WARNING (CouldNotProcess x e))) st_x)
                  = documents st).
  { simpl. eapply process_source_Raise_documents. exact Hx. }
  assert (Hnone : item_records self x st = []).
  { unfold item_records. rewrite Hitem. simpl.
    rewrite (process_source_Raise_documents _ _ _ _ _ Hx). apply drop_all. }
  split; [exact Hitem|]. split; [exact Hdocs|]. split; [exact Hnone|]. split.
  - rewrite !run_try_unfold, for__app, (bind_Return _ _ _ _ _ Hpre). simpl.
    by rewrite (bind_Return _ _ _ _ _ Hitem).
  - pose proof (run_documents self (pre ++ x :: post) w) as Hrun.
    rewrite (per_item_records_app _ _ _ _ _ Hpre) in Hrun. simpl in Hrun.
    rewrite Hitem, Hnone in Hrun. simpl in Hrun.
    by rewrite concat_app in Hrun.
Qed.

Lemma run_item_error_isolated_witness :
  for_ [src_str "foo.pdf"] (run_item (Mock.component "markdown")) Mock.st0
  = (Return tt,
     snd (for_ [src_str "foo.pdf"] (run_item (Mock.component "markdown")) Mock.st0))
  /\ process_source (Mock.component "markdown") (src_str "bad.pdf")
       (snd (for_ [src_str "foo.pdf"] (run_item (Mock.component "markdown"))
               Mock.st0))
     = (Raise (Exception "ConversionError" "bad.pdf"),
        snd (process_source (Mock.component "markdown") (src_str "bad.pdf")
               (snd (for_ [src_str "foo.pdf"]
                       (run_item (Mock.component "markdown")) Mock.st0))))
  /\ isinstance_Exception (Exception "ConversionError" "bad.pdf") = true
  /\ item_records (Mock.component "markdown") (src_str "bad.pdf")
       (snd (for_ [src_str "foo.pdf"] (run_item (Mock.component "markdown"))
               Mock.st0))
     = []
  /\ fst (run (Mock.component "markdown")
            ([src_str "foo.pdf"] ++ src_str "bad.pdf" :: [src_str "bar.pdf"])
            Mock.w0)
     = Return {[ "documents" := [Mock.the_md_record; Mock.the_md_record] ]}.
Proof.
  assert (Hpre : for_ [src_str "foo.pdf"] (run_item (Mock.component "markdown"))
                   Mock.st0
                 = (Return tt,
                    snd (for_ [src_str "foo.pdf"]
                           (run_item (Mock.component "markdown")) Mock.st0))).
  { vm_compute. reflexivity. }
  assert (Hx : process_source (Mock.component "markdown") (src_str "bad.pdf")
                 (snd (for_ [src_str "foo.pdf"]
                         (run_item (Mock.component "markdown")) Mock.st0))
               = (Raise (Exception "ConversionError" "bad.pdf"),
                  snd (process_source (Mock.component "markdown")
                         (src_str "bad.pdf")
                         (snd (for_ [src_str "foo.pdf"]
                                 (run_item (Mock.component "markdown"))
                                 Mock.st0))))).
  { vm_compute. reflexivity. }
  split; [exact Hpre|]. split; [exact Hx|]. split; [reflexivity|].
  split.
  - exact (proj1 (proj2 (proj2
             (run_item_error_isolated (Mock.component "markdown")
                [src_str "foo.pdf"] [src_str "bar.pdf"] (src_str "bad.pdf")
                Mock.w0 _ _ _ Hpre Hx eq_refl)))).
  - vm_compute. reflexivity.
Defined.

(** ** An unexpected export type *)

(** With an export type that is neither ["doc_chunks"] nor ["markdown"] no
    item ever contributes a record, and the [RuntimeError] of the last
    branch does not leave [run]: the batch returns an empty list unless an
    error that is no [Exception] aborts it. *)
Lemma run_unexpected_export_type self paths w :
  _export_type self <> ExportType_value DOC_CHUNKS ->
  _export_type self <> ExportType_value MARKDOWN ->
  match fst (run self paths w) with
  | Return res => res = {[ "documents" := [] ]}
  | Raise e => isinstance_Exception e = false
  end.
Proof.
  intros H1 H2.
  assert (Hnone : forall st, concat (per_item_records self paths st) = []).
  { induction paths as [|s rest IH]; intros st; simpl; [reflexivity|].
    by rewrite IH, (item_records_unexpected _ _ _ H1 H2). }
  pose proof (run_documents self paths w) as Hrun.
  by rewrite Hnone in Hrun.
Qed.

(** C1 (the code does not do what the claim says): configured with the
    export type ["json"], [run] on the input list [["foo.pdf"]] converts the
    file, raises [RuntimeError("Unexpected export type: json")] in the last
    branch, catches it in the handler of the loop iteration, logs it as a
    WARNING and returns the mapping with an empty list of documents. *)
Theorem run_unexpected_export_type_swallowed :
  run (Mock.component "json") [src_str "foo.pdf"] Mock.w0
  = (Return {[ "documents" := [] ]},
     mkWorld ∅ ∅ ["/tmp/tmpa1b2c3d4"; "/tmp/tmpe5f6g7h8"]
       [ConvertCalled "foo.pdf" ∅;
        Logged WARNING
          (CouldNotProcess (src_str "foo.pdf")
             (RuntimeError "Unexpected export type: json"))]).
Proof. vm_compute. reflexivity. Qed.


(** * Further properties of the component *)

(** ** Relations kept by a loop iteration *)

Section ItemSteps.

Variable R : St -> St -> Prop.
Hypothesis R_refl : forall st, R st st.
Hypothesis R_trans : forall st1 st2 st3, R st1 st2 -> R st2 st3 -> R st1 st3.
Variable self : DoclingConverter.
Hypothesis R_convert :
  forall filepath,
    steps R (call_convert (_converter self) filepath (_convert_kwargs self)).
Hypothesis R_extend : forall ds, steps R (documents_extend ds).
Hypothesis R_append : forall d, steps R (documents_append d).

Lemma export_document_steps dl_doc : steps R (export_document self dl_doc).
Proof using R_refl R_trans R_extend R_append.
  unfold export_document. repeat case_match;
    repeat (first
      [ apply steps_ret, R_refl
      | apply steps_raise, R_refl
      | apply steps_lift, R_refl
      | apply R_extend
      | apply R_append
      | apply steps_bind; [apply R_trans | | intros ?] ]).
Qed.

Lemma process_source_steps source :
  (forall bs, source = src_ByteStream bs -> steps R (normalise_bytestream bs)) ->
  steps R (process_source self source).
Proof using R_refl R_trans R_convert R_extend R_append.
  intros Hn. unfold process_source. rewrite convert_source_eq.
  apply steps_bind; [apply R_trans | |].
  - apply steps_bind; [apply R_trans | |].
    + destruct source; [apply steps_ret, R_refl..|]. by apply Hn.
    + intros filepath. apply steps_bind; [apply R_trans | |].
      * apply R_convert.
      * intros res. apply steps_ret, R_refl.
  - intros dl_doc. apply export_document_steps.
Qed.

Lemma run_item_steps source :
  (forall bs, source = src_ByteStream bs -> steps R (normalise_bytestream bs)) ->
  (forall e, steps R (log WARNING (CouldNotProcess source e))) ->
  steps R (run_item self source).
Proof using R_refl R_trans R_convert R_extend R_append.
  intros Hn Hl. apply steps_try_except; [apply R_trans | |].
  - by apply process_source_steps.
  - exact Hl.
Qed.

Lemma for__run_item_steps paths :
  (forall source, source ∈ paths -> steps R (run_item self source)) ->
  steps R (for_ paths (run_item self)).
Proof using R_refl R_trans.
  induction paths as [|s rest IH]; intros Hb; simpl.
  - apply steps_ret, R_refl.
  - apply steps_bind; [apply R_trans | |].
    + apply Hb. by left.
    + intros _. apply IH. intros source Hin. apply Hb. by right.
Qed.

(** After the first step [m] of a guarded sequence, what follows, handler
    included, steps along [R]. *)
Lemma try_except_bind_after {A B} (m : M A) (k : A -> M B) (h : PyExc -> M B) st :
  (forall a, steps R (k a)) ->
  (forall e, steps R (h e)) ->
  R (snd (m st)) (snd (try_except (bind m k) h st)).
Proof using R_refl R_trans.
  intros Hk Hh. unfold try_except, bind.
  destruct (m st) as [[a|e] st1]; simpl.
  - specialize (Hk a st1). destruct (k a st1) as [[b|e] st2]; simpl in *;
      [exact Hk|].
    destruct (isinstance_Exception e); [|exact Hk].
    eapply R_trans; [exact Hk | apply Hh].
  - destruct (isinstance_Exception e); [apply Hh | apply R_refl].
Qed.

End ItemSteps.

(** A loop iteration on a path or a string is the conversion followed by
    the export, under the handler. *)
Lemma run_item_path self source p st :
  str_source source = Some p ->
  run_item self source st =
  try_except
    (bind (call_convert (_converter self) p (_convert_kwargs self))
          (fun res => export_document self (document res)))
    (fun e => log WARNING (CouldNotProcess source e)) st.
Proof.
  intros Hp. unfold run_item, try_except, process_source, convert_source, bind, ret.
  destruct source; simplify_eq/=;
    by destruct (call_convert _ _ _ st) as [[res|e] st1].
Qed.

Lemma is_path_str_source source :
  is_path source = true -> exists p, str_source source = Some p.
Proof. destruct source; simpl; [by eexists..|discriminate]. Qed.

(** *** Silence *)

Lemma silent_refl {B} (g : Event -> option B) st : silent g st st.
Proof. exists []. by rewrite app_nil_r. Qed.

Lemma silent_trans {B} (g : Event -> option B) st1 st2 st3 :
  silent g st1 st2 -> silent g st2 st3 -> silent g st1 st3.
Proof.
  intros (evs1 & H1 & G1) (evs2 & H2 & G2). exists (evs1 ++ evs2).
  by rewrite H2, H1, app_assoc, omap_app, G1, G2.
Qed.

Lemma silent_same {B} (g : Event -> option B) st st' :
  trace (world st') = trace (world st) -> silent g st st'.
Proof. intros H. exists []. by rewrite app_nil_r. Qed.

Lemma silent_event {B} (g : Event -> option B) st st' ev :
  trace (world st') = trace (world st) ++ [ev] -> g ev = None -> silent g st st'.
Proof. intros H G. exists [ev]. simpl. by rewrite G. Qed.

Lemma normalise_bytestream_silent {B} (g : Event -> option B) bs :
  (forall name, g (TempFileCreated name) = None) ->
  steps (silent g) (normalise_bytestream bs).
Proof.
  intros G st. rewrite normalise_bytestream_unfold. handle_cases; simpl.
  - apply silent_refl.
  - by apply (silent_event g _ _ (TempFileCreated name)).
  - by apply (silent_event g _ _ (TempFileCreated name)).
  - by apply (silent_event g _ _ (TempFileCreated name)).
  - by apply silent_same.
Qed.

Lemma call_convert_silent {B} (g : Event -> option B) c filepath kwargs :
  g (ConvertCalled filepath kwargs) = None ->
  steps (silent g) (call_convert c filepath kwargs).
Proof.
  intros G st. unfold call_convert. destruct (convert _ _ _ _) as [r fs]. simpl.
  by apply (silent_event g _ _ (ConvertCalled filepath kwargs)).
Qed.

Lemma log_silent {B} (g : Event -> option B) level record :
  g (Logged level record) = None -> steps (silent g) (log level record).
Proof. intros G st. by apply (silent_event g _ _ (Logged level record)). Qed.

Lemma export_document_silent {B} (g : Event -> option B) self dl_doc :
  steps (silent g) (export_document self dl_doc).
Proof.
  unfold export_document. repeat case_match;
    repeat (first
      [ apply steps_ret, silent_refl
      | apply steps_raise, silent_refl
      | apply steps_lift, silent_refl
      | (intros st; by apply silent_same)
      | apply steps_bind; [apply silent_trans | | intros ?] ]).
Qed.

(** ** Batches without byte buffers *)

Lemma no_temporary_refl st : no_temporary st st.
Proof. by split. Qed.

Lemma no_temporary_trans st1 st2 st3 :
  no_temporary st1 st2 -> no_temporary st2 st3 -> no_temporary st1 st3.
Proof. intros [H1 H2] [H3 H4]. split; congruence. Qed.

Lemma run_item_no_temporary self source :
  is_path source = true -> steps no_temporary (run_item self source).
Proof.
  intros Hp.
  apply run_item_steps;
    [apply no_temporary_refl | apply no_temporary_trans | | | | |].
  - intros filepath st. unfold call_convert.
    by destruct (convert _ _ _ _) as [r fs].
  - by intros ds st.
  - by intros d st.
  - intros bs ->. discriminate.
  - by intros e st.
Qed.

Lemma for__paths_no_temporary self paths :
  Forall (fun source => is_path source = true) paths ->
  steps no_temporary (for_ paths (run_item self)).
Proof.
  intros Hall.
  apply for__run_item_steps; [apply no_temporary_refl | apply no_temporary_trans |].
  intros source Hin. apply run_item_no_temporary.
  by apply (proj1 (Forall_forall _ _) Hall).
Qed.

Lemma run_item_path_creates_nothing self source :
  is_path source = true ->
  steps (silent (fun ev => match ev with
                           | TempFileCreated n => Some n
                           | _ => None
                           end))
        (run_item self source).
Proof.
  intros Hp.
  apply run_item_steps; [apply silent_refl | apply silent_trans | | | | |].
  - intros filepath. by apply call_convert_silent.
  - intros ds st. by apply silent_same.
  - intros d st. by apply silent_same.
  - intros bs ->. discriminate.
  - intros e. by apply log_silent.
Qed.

Lemma item_events_eq self paths w evs :
  trace (world (run_try_state self paths w)) = trace w ++ evs ->
  item_events self paths w = evs.
Proof. unfold item_events. intros ->. apply drop_app_length. Qed.

Lemma run_try_state_paths self paths w :
  Forall (fun source => is_path source = true) paths ->
  temp_files (run_try_state self paths w) = []
  /\ names (world (run_try_state self paths w)) = names w.
Proof.
  intros Hall. unfold run_try_state. rewrite run_try_snd.
  apply (for__paths_no_temporary self paths Hall (mkSt w [] [])).
Qed.

Lemma run_paths_world self paths w :
  Forall (fun source => is_path source = true) paths ->
  snd (run self paths w) = world (run_try_state self paths w).
Proof.
  intros Hall. destruct (run_try_state_paths self paths w Hall) as [Htf _].
  rewrite run_unfold. simpl. fold (run_try_state self paths w).
  unfold cleanup. by rewrite Htf.
Qed.

(** X1: when no input item is a byte buffer, [run] creates no temporary
    file, attempts no removal, leaves the name generator untouched, and the
    world it leaves is the one in which the loop ended. *)
Theorem run_paths_no_temporary_file
    (self : DoclingConverter) (paths : list Source) (w : World) :
  Forall (fun source => is_path source = true) paths ->
  created_names (item_events self paths w) = []
  /\ cleanup_events self paths w = []
  /\ names (snd (run self paths w)) = names w
  /\ snd (run self paths w) = world (run_try_state self paths w).
Proof.
  intros Hall. destruct (run_try_state_paths self paths w Hall) as [Htf Hn].
  pose proof (run_paths_world self paths w Hall) as Hrun.
  split; [|split; [|split]].
  - destruct (for__run_item_steps _ (silent_refl _) (silent_trans _) self paths
                (fun source Hin =>
                   run_item_path_creates_nothing self source
                     (proj1 (Forall_forall _ _) Hall source Hin))
                (mkSt w [] []))
      as (evs & Htr & Hnone).
    rewrite (item_events_eq self paths w evs); [exact Hnone|].
    unfold run_try_state. by rewrite run_try_snd.
  - unfold cleanup_events. rewrite Hrun. apply drop_all.
  - by rewrite Hrun.
  - exact Hrun.
Qed.

Lemma run_paths_no_temporary_file_witness :
  Forall (fun source => is_path source = true)
         [src_str "foo.pdf"; src_Path "bad.pdf"]
  /\ created_names
       (item_events (Mock.component "doc_chunks")
          [src_str "foo.pdf"; src_Path "bad.pdf"] Mock.w0) = []
  /\ names (snd (run (Mock.component "doc_chunks")
                   [src_str "foo.pdf"; src_Path "bad.pdf"] Mock.w0))
     = names Mock.w0.
Proof.
  assert (Hall : Forall (fun source => is_path source = true)
                        [src_str "foo.pdf"; src_Path "bad.pdf"]).
  { repeat constructor. }
  split; [exact Hall|].
  destruct (run_paths_no_temporary_file (Mock.component "doc_chunks")
              [src_str "foo.pdf"; src_Path "bad.pdf"] Mock.w0 Hall)
    as (H1 & _ & H3 & _).
  split; [exact H1 | exact H3].
Defined.

(** ** The conversions a batch requests *)

Lemma run_item_path_calls self source p st :
  str_source source = Some p ->
  exists evs,
    trace (world (snd (run_item self source st))) = trace (world st) ++ evs
    /\ convert_calls evs = [(p, _convert_kwargs self)].
Proof.
  intros Hp. rewrite (run_item_path _ _ _ _ Hp).
  destruct (try_except_bind_after (silent convert_call_of)
              (silent_refl convert_call_of) (silent_trans convert_call_of)
              (call_convert (_converter self) p (_convert_kwargs self))
              (fun res => export_document self (document res))
              (fun e => log WARNING (CouldNotProcess source e)) st)
    as (evs & Htr & Hg).
  - intros res. apply export_document_silent.
  - intros e. by apply log_silent.
  - exists (ConvertCalled p (_convert_kwargs self) :: evs). split.
    + rewrite Htr. unfold call_convert.
      destruct (convert _ _ _ _) as [r fs]. simpl. by rewrite <- app_assoc.
    + unfold convert_calls. simpl. f_equal. exact Hg.
Qed.

Lemma for__paths_calls self paths st :
  Forall (fun source => is_path source = true) paths ->
  exists evs,
    trace (world (snd (for_ paths (run_item self) st))) = trace (world st) ++ evs
    /\ convert_calls evs
         `prefix_of` map (fun p => (p, _convert_kwargs self)) (omap str_source paths)
    /\ (fst (for_ paths (run_item self) st) = Return tt ->
        convert_calls evs
        = map (fun p => (p, _convert_kwargs self)) (omap str_source paths)).
Proof.
  intros Hall. revert st. induction Hall as [|s rest Hs _ IH]; intros st.
  - exists []. simpl. rewrite app_nil_r. by repeat split.
  - destruct (is_path_str_source _ Hs) as [p Hp].
    destruct (run_item_path_calls self s p st Hp) as (evs1 & Htr1 & Hc1).
    simpl. rewrite Hp. simpl. unfold bind.
    destruct (run_item self s st) as [[[]|e] st1]; simpl in *.
    + destruct (IH st1) as (evs2 & Htr2 & Hpre2 & Heq2).
      exists (evs1 ++ evs2). rewrite Htr2, Htr1, <- app_assoc.
      unfold convert_calls in *. rewrite omap_app, Hc1. simpl.
      split; [done|]. split; [by apply prefix_cons|].
      intros Hret. by rewrite (Heq2 Hret).
    + exists evs1. rewrite Hc1. split; [done|]. split; [|discriminate].
      apply prefix_cons, prefix_nil.
Qed.

(** X2: when no input item is a byte buffer, the conversions [run] requests
    are requested in input order, each with the string form of the item and
    the configured [_convert_kwargs], no item twice; when [run] returns, every
    item was requested, whether its processing then failed or not. *)
Theorem run_paths_convert_calls
    (self : DoclingConverter) (paths : list Source) (w : World) :
  Forall (fun source => is_path source = true) paths ->
  convert_calls (item_events self paths w)
    `prefix_of` map (fun p => (p, _convert_kwargs self)) (omap str_source paths)
  /\ (forall res,
        fst (run self paths w) = Return res ->
        convert_calls (item_events self paths w)
        = map (fun p => (p, _convert_kwargs self)) (omap str_source paths)).
Proof.
  intros Hall.
  destruct (for__paths_calls self paths (mkSt w [] []) Hall)
    as (evs & Htr & Hpre & Heq).
  assert (Hev : item_events self paths w = evs).
  { apply item_events_eq. unfold run_try_state. by rewrite run_try_snd. }
  rewrite Hev. split; [exact Hpre|].
  intros res Hres. apply Heq.
  rewrite run_unfold, run_try_unfold in Hres. simpl in Hres.
  by destruct (for_ paths (run_item self) (mkSt w [] [])) as [[[]|e] st'].
Qed.

Lemma run_paths_convert_calls_witness :
  Forall (fun source => is_path source = true)
         [src_str "foo.pdf"; src_Path "bad.pdf"]
  /\ fst (run (Mock.component "markdown")
            [src_str "foo.pdf"; src_Path "bad.pdf"] Mock.w0)
     = Return {[ "documents" := [Mock.the_md_record] ]}
  /\ convert_calls
       (item_events (Mock.component "markdown")
          [src_str "foo.pdf"; src_Path "bad.pdf"] Mock.w0)
     = [("foo.pdf", ∅); ("bad.pdf", ∅)].
Proof.
  assert (Hall : Forall (fun source => is_path source = true)
                        [src_str "foo.pdf"; src_Path "bad.pdf"]).
  { repeat constructor. }
  assert (Hres : fst (run (Mock.component "markdown")
                        [src_str "foo.pdf"; src_Path "bad.pdf"] Mock.w0)
                 = Return {[ "documents" := [Mock.the_md_record] ]}).
  { vm_compute. reflexivity. }
  split; [exact Hall|]. split; [exact Hres|].
  exact (proj2 (run_paths_convert_calls (Mock.component "markdown")
                  [src_str "foo.pdf"; src_Path "bad.pdf"] Mock.w0 Hall)
           _ Hres).
Defined.

(** ** Errors that are no [Exception] *)

(** X4: when the processing of an item [x], reached after the items [pre],
    raises an error [e] that does not derive from [Exception], [run] raises
    [e] after the cleanup of the state [x] left: no record is returned, and
    the items after [x] are never looked at, since the outcome and the world
    do not depend on them. *)
Theorem run_aborts_on_BaseException
    (self : DoclingConverter) (pre post : list Source) (x : Source)
    (w : World) (st st_x : St) (e : PyExc) :
  for_ pre (run_item self) (mkSt w [] []) = (Return tt, st) ->
  process_source self x st = (Raise e, st_x) ->
  isinstance_Exception e = false ->
  run self (pre ++ x :: post) w = (Raise e, world (snd (cleanup st_x)))
  /\ run self (pre ++ x :: post) w = run self (pre ++ [x]) w.
Proof.
  intros Hpre Hx He.
  assert (Hitem : run_item self x st = (Raise e, st_x)).
  { unfold run_item, try_except. by rewrite Hx, He. }
  assert (Hall : forall rest,
             run self (pre ++ x :: rest) w = (Raise e, world (snd (cleanup st_x)))).
  { intros rest. rewrite run_unfold, run_try_unfold, for__app.
    rewrite (bind_Return _ _ _ _ _ Hpre). simpl.
    by rewrite (bind_Raise _ _ _ _ _ Hitem). }
  split; [apply Hall|]. by rewrite !Hall.
Qed.

Lemma run_aborts_on_BaseException_witness :
  for_ [src_str "foo.pdf"] (run_item (Interrupt.component "markdown")) Mock.st0
  = (Return tt,
     snd (for_ [src_str "foo.pdf"] (run_item (Interrupt.component "markdown"))
            Mock.st0))
  /\ process_source (Interrupt.component "markdown") (src_str "stop.pdf")
       (snd (for_ [src_str "foo.pdf"] (run_item (Interrupt.component "markdown"))
               Mock.st0))
     = (Raise (BaseException "KeyboardInterrupt" ""),
        snd (process_source (Interrupt.component "markdown") (src_str "stop.pdf")
               (snd (for_ [src_str "foo.pdf"]
                       (run_item (Interrupt.component "markdown")) Mock.st0))))
  /\ isinstance_Exception (BaseException "KeyboardInterrupt" "") = false
  /\ run (Interrupt.component "markdown")
       ([src_str "foo.pdf"] ++ src_str "stop.pdf" :: [src_str "bar.pdf"]) Mock.w0
     = run (Interrupt.component "markdown")
         ([src_str "foo.pdf"] ++ [src_str "stop.pdf"]) Mock.w0.
Proof.
  assert (Hpre : for_ [src_str "foo.pdf"]
                   (run_item (Interrupt.component "markdown")) Mock.st0
                 = (Return tt,
                    snd (for_ [src_str "foo.pdf"]
                           (run_item (Interrupt.component "markdown")) Mock.st0))).
  { vm_compute. reflexivity. }
  assert (Hx : process_source (Interrupt.component "markdown") (src_str "stop.pdf")
                 (snd (for_ [src_str "foo.pdf"]
                         (run_item (Interrupt.component "markdown")) Mock.st0))
               = (Raise (BaseException "KeyboardInterrupt" ""),
                  snd (process_source (Interrupt.component "markdown")
                         (src_str "stop.pdf")
                         (snd (for_ [src_str "foo.pdf"]
                                 (run_item (Interrupt.component "markdown"))
                                 Mock.st0))))).
  { vm_compute. reflexivity. }
  split; [exact Hpre|]. split; [exact Hx|]. split; [reflexivity|].
  exact (proj2 (run_aborts_on_BaseException (Interrupt.component "markdown")
                  [src_str "foo.pdf"] [src_str "bar.pdf"] (src_str "stop.pdf")
                  Mock.w0 _ _ _ Hpre Hx eq_refl)).
Defined.

(** ** Every item is accounted for *)

Lemma process_source_warn_silent self source :
  steps (silent warning_of) (process_source self source).
Proof.
  apply process_source_steps;
    [apply silent_refl | apply silent_trans | | | |].
  - intros filepath. by apply call_convert_silent.
  - intros ds st. by apply silent_same.
  - intros d st. by apply silent_same.
  - intros bs _. by apply normalise_bytestream_silent.
Qed.

(** A loop iteration that returns either processed its item without a
    warning, or caught an [Exception], logged one warning for the item and
    left [documents] alone. *)
Lemma run_item_Return_cases self source st st' :
  run_item self source st = (Return tt, st') ->
  exists evs,
    trace (world st') = trace (world st) ++ evs
    /\ ((process_source self source st = (Return tt, st') /\ warned evs = [])
        \/ (exists e st_x,
               process_source self source st = (Raise e, st_x)
               /\ isinstance_Exception e = true
               /\ warned evs = [(source, e)]
               /\ documents st' = documents st)).
Proof.
  unfold run_item, try_except.
  destruct (process_source_warn_silent self source st) as (evs & Htr & Hw).
  pose proof (process_source_Raise_documents self source st) as Hdocs.
  destruct (process_source self source st) as [[[]|e] st1]; simpl in *.
  - intros [= <-]. exists evs. split; [exact Htr|]. by left.
  - destruct (isinstance_Exception e) eqn:He; [|discriminate].
    intros [= <-]. exists (evs ++ [Logged WARNING (CouldNotProcess source e)]).
    split; [simpl; by rewrite Htr, app_assoc|].
    right. exists e, st1. split; [done|]. split; [done|]. split.
    + unfold warned in *. by rewrite omap_app, Hw.
    + simpl. by apply (Hdocs e st1).
Qed.

Lemma process_source_markdown_Return self source st st' :
  _export_type self = ExportType_value MARKDOWN ->
  process_source self source st = (Return tt, st') ->
  exists d, documents st' = documents st ++ [d].
Proof.
  intros Hmode. unfold process_source, bind.
  pose proof (convert_source_documents self source st) as Hc.
  destruct (convert_source self source st) as [[dl_doc|e] st1]; [|discriminate].
  simpl in Hc. unfold export_document, bind, lift. rewrite Hmode. simpl.
  destruct (export_to_markdown _ _) as [content|e]; [|discriminate].
  destruct (extract_dl_doc_meta _ _) as [meta|e]; [|discriminate].
  intros [= <-]. simpl. rewrite Hc. by eexists.
Qed.

Lemma for__markdown_accounting self paths st st' :
  _export_type self = ExportType_value MARKDOWN ->
  for_ paths (run_item self) st = (Return tt, st') ->
  exists evs,
    trace (world st') = trace (world st) ++ evs
    /\ length (documents st') + length (warned evs)
       = length (documents st) + length paths.
Proof.
  intros Hmode. revert st. induction paths as [|s rest IH]; intros st; simpl.
  - intros [= <-]. exists []. rewrite app_nil_r. simpl. split; [done|lia].
  - unfold bind. destruct (run_item self s st) as [[[]|e] st1] eqn:E;
      [|discriminate].
    intros Hrest. destruct (IH _ Hrest) as (evs2 & Htr2 & Hlen2).
    destruct (run_item_Return_cases _ _ _ _ E) as (evs1 & Htr1 & Hcase).
    exists (evs1 ++ evs2). rewrite Htr2, Htr1, <- app_assoc. split; [done|].
    unfold warned in *. rewrite omap_app, length_app.
    destruct Hcase as [[Hp Hw]|(e & st_x & _ & _ & Hw & Hd)]; rewrite Hw; simpl.
    + destruct (process_source_markdown_Return _ _ _ _ Hmode Hp) as [d Hd].
      rewrite Hd, length_app in Hlen2. simpl in Hlen2. lia.
    + rewrite Hd in Hlen2. lia.
Qed.

(** X5: in markdown export mode, when [run] returns, every input item is
    accounted for exactly once: the number of records returned plus the
    number of warnings logged equals the number of input items. *)
Theorem run_markdown_accounting
    (self : DoclingConverter) (paths : list Source) (w : World)
    (res : gmap string (list Document.t)) :
  _export_type self = ExportType_value MARKDOWN ->
  fst (run self paths w) = Return res ->
  exists docs,
    res = {[ "documents" := docs ]}
    /\ length docs + length (warned (item_events self paths w)) = length paths.
Proof.
  intros Hmode. rewrite run_unfold, run_try_unfold. simpl.
  destruct (for_ paths (run_item self) (mkSt w [] [])) as [[[]|e] st'] eqn:E;
    [|discriminate].
  intros [= <-]. exists (documents st'). split; [done|].
  destruct (for__markdown_accounting _ _ _ _ Hmode E) as (evs & Htr & Hlen).
  rewrite (item_events_eq self paths w evs); [exact Hlen|].
  unfold run_try_state. by rewrite run_try_snd, E.
Qed.

Lemma run_markdown_accounting_witness :
  _export_type (Mock.component "markdown") = ExportType_value MARKDOWN
  /\ fst (run (Mock.component "markdown")
            [src_str "foo.pdf"; src_str "bad.pdf"; src_ByteStream Mock.bytestream]
            Mock.w0)
     = Return {[ "documents" := [Mock.the_md_record; Mock.the_md_record] ]}
  /\ exists docs,
       ({[ "documents" := [Mock.the_md_record; Mock.the_md_record] ]}
          : gmap string (list Document.t)) = {[ "documents" := docs ]}
       /\ length docs
          + length (warned
                      (item_events (Mock.component "markdown")
                         [src_str "foo.pdf"; src_str "bad.pdf";
                          src_ByteStream Mock.bytestream] Mock.w0))
          = 3.
Proof.
  assert (Hres : fst (run (Mock.component "markdown")
                        [src_str "foo.pdf"; src_str "bad.pdf";
                         src_ByteStream Mock.bytestream] Mock.w0)
                 = Return {[ "documents" :=
                               [Mock.the_md_record; Mock.the_md_record] ]}).
  { vm_compute. reflexivity. }
  split; [reflexivity|]. split; [exact Hres|].
  exact (run_markdown_accounting (Mock.component "markdown") _ Mock.w0 _
           eq_refl Hres).
Defined.

(** ** Every item of a misconfigured component is skipped *)

Lemma process_source_unexpected_Return self source st st' :
  _export_type self <> ExportType_value DOC_CHUNKS ->
  _export_type self <> ExportType_value MARKDOWN ->
  process_source self source st <> (Return tt, st').
Proof.
  intros H1 H2. unfold process_source, bind.
  destruct (convert_source self source st) as [[dl_doc|e] st1]; [|discriminate].
  unfold export_document. apply String.eqb_neq in H1, H2. rewrite H1, H2.
  discriminate.
Qed.

Lemma for__unexpected_warned self paths st st' :
  _export_type self <> ExportType_value DOC_CHUNKS ->
  _export_type self <> ExportType_value MARKDOWN ->
  for_ paths (run_item self) st = (Return tt, st') ->
  exists evs,
    trace (world st') = trace (world st) ++ evs
    /\ map fst (warned evs) = paths.
Proof.
  intros H1 H2. revert st. induction paths as [|s rest IH]; intros st; simpl.
  - intros [= <-]. exists []. by rewrite app_nil_r.
  - unfold bind. destruct (run_item self s st) as [[[]|e] st1] eqn:E;
      [|discriminate].
    intros Hrest. destruct (IH _ Hrest) as (evs2 & Htr2 & Hw2).
    destruct (run_item_Return_cases _ _ _ _ E) as (evs1 & Htr1 & Hcase).
    exists (evs1 ++ evs2). rewrite Htr2, Htr1, <- app_assoc. split; [done|].
    unfold warned in *. rewrite omap_app, map_app, Hw2.
    destruct Hcase as [[Hp _]|(e & st_x & _ & _ & -> & _)].
    + by destruct (process_source_unexpected_Return _ _ _ _ H1 H2 Hp).
    + reflexivity.
Qed.

(** X6: with an export type that is neither ["doc_chunks"] nor ["markdown"],
    whenever [run] returns it returns an empty list of records and has
    logged exactly one warning per input item, in input order: every item is
    converted first and then skipped. *)
Theorem run_unexpected_export_type_skips_all
    (self : DoclingConverter) (paths : list Source) (w : World)
    (res : gmap string (list Document.t)) :
  _export_type self <> ExportType_value DOC_CHUNKS ->
  _export_type self <> ExportType_value MARKDOWN ->
  fst (run self paths w) = Return res ->
  res = {[ "documents" := [] ]}
  /\ map fst (warned (item_events self paths w)) = paths.
Proof.
  intros H1 H2 Hres. split.
  - pose proof (run_unexpected_export_type self paths w H1 H2) as Hrun.
    by rewrite Hres in Hrun.
  - rewrite run_unfold, run_try_unfold in Hres. simpl in Hres.
    destruct (for_ paths (run_item self) (mkSt w [] [])) as [[[]|e] st'] eqn:E;
      [|discriminate].
    destruct (for__unexpected_warned _ _ _ _ H1 H2 E) as (evs & Htr & Hw).
    rewrite (item_events_eq self paths w evs); [exact Hw|].
    unfold run_try_state. by rewrite run_try_snd, E.
Qed.

Lemma run_unexpected_export_type_skips_all_witness :
  _export_type (Mock.component "json") <> ExportType_value DOC_CHUNKS
  /\ _export_type (Mock.component "json") <> ExportType_value MARKDOWN
  /\ fst (run (Mock.component "json")
            [src_str "foo.pdf"; src_str "bad.pdf"] Mock.w0)
     = Return {[ "documents" := [] ]}
  /\ map fst (warned (item_events (Mock.component "json")
                        [src_str "foo.pdf"; src_str "bad.pdf"] Mock.w0))
     = [src_str "foo.pdf"; src_str "bad.pdf"].
Proof.
  assert (H1 : _export_type (Mock.component "json") <> ExportType_value DOC_CHUNKS).
  { discriminate. }
  assert (H2 : _export_type (Mock.component "json") <> ExportType_value MARKDOWN).
  { discriminate. }
  assert (Hres : fst (run (Mock.component "json")
                        [src_str "foo.pdf"; src_str "bad.pdf"] Mock.w0)
                 = Return {[ "documents" := [] ]}).
  { vm_compute. reflexivity. }
  split; [exact H1|]. split; [exact H2|]. split; [exact Hres|].
  exact (proj2 (run_unexpected_export_type_skips_all (Mock.component "json")
                  _ Mock.w0 _ H1 H2 Hres)).
Defined.

(** ** The file system after a run *)

Lemma files_kept_refl st : files_kept st st.
Proof.
  exists []. rewrite app_nil_r. repeat split; try done.
  intros p Hp. by apply elem_of_nil in Hp.
Qed.

Lemma files_kept_trans st1 st2 st3 :
  files_kept st1 st2 -> files_kept st2 st3 -> files_kept st1 st3.
Proof.
  intros (evs1 & Ht1 & Hn1 & Hk1) (evs2 & Ht2 & Hn2 & Hk2).
  exists (evs1 ++ evs2). unfold created_names in *.
  rewrite Ht2, Ht1, app_assoc, omap_app. repeat split.
  - intros p Hp. destruct (decide (p ∈ created_names evs1)) as [H1|H1].
    + by apply Hn1.
    + apply elem_of_app in Hp as [Hp|Hp]; [done|].
      rewrite <- (Hk1 p H1). by apply Hn2.
  - intros p Hp. apply not_elem_of_app in Hp as [H1 H2].
    by rewrite (Hk2 p H2), (Hk1 p H1).
Qed.

Lemma files_kept_same st st' :
  trace (world st') = trace (world st) ->
  files (world st') = files (world st) ->
  files_kept st st'.
Proof.
  intros Ht Hf. exists []. rewrite app_nil_r, Hf. repeat split; try done.
  intros p Hp. by apply elem_of_nil in Hp.
Qed.

Lemma files_kept_event st st' ev :
  trace (world st') = trace (world st) ++ [ev] ->
  created_names [ev] = [] ->
  files (world st') = files (world st) ->
  files_kept st st'.
Proof.
  intros Ht Hc Hf. exists [ev]. rewrite Hc, Hf. repeat split; try done.
  intros p Hp. by apply elem_of_nil in Hp.
Qed.

Lemma files_kept_created st st' name content :
  files (world st) !! name = None ->
  trace (world st') = trace (world st) ++ [TempFileCreated name] ->
  files (world st') = <[name := content]> (files (world st)) ->
  files_kept st st'.
Proof.
  intros Hfree Ht Hf. exists [TempFileCreated name]. simpl. repeat split.
  - done.
  - intros p Hp. apply list_elem_of_singleton in Hp. by subst.
  - intros p Hp. rewrite Hf. apply lookup_insert_ne. intros ->. apply Hp.
    apply list_elem_of_here.
Qed.

Lemma normalise_bytestream_files_kept bs : steps files_kept (normalise_bytestream bs).
Proof.
  intros st. rewrite normalise_bytestream_unfold. handle_cases; simpl;
    try (destruct (_mkstemp_inner_Some _ _ _ _ _ Hstem) as [Hfree _]).
  - apply files_kept_refl.
  - by apply (files_kept_created _ _ name []).
  - by apply (files_kept_created _ _ name (ByteStream.data bs)).
  - by apply (files_kept_created _ _ name (ByteStream.data bs)).
  - by apply files_kept_same.
Qed.

Lemma run_item_files_kept self source :
  read_only (_converter self) -> steps files_kept (run_item self source).
Proof.
  intros Hro.
  apply run_item_steps; [apply files_kept_refl | apply files_kept_trans | | | | |].
  - intros filepath st. unfold call_convert.
    pose proof (Hro filepath (_convert_kwargs self)
                  (files (world (set_world
                     (emit (ConvertCalled filepath (_convert_kwargs self))) st))))
      as Hfs.
    destruct (convert _ _ _ _) as [r fs]. simpl in *. subst fs.
    by apply (files_kept_event _ _ (ConvertCalled filepath (_convert_kwargs self))).
  - intros ds st. by apply files_kept_same.
  - intros d st. by apply files_kept_same.
  - intros bs _. apply normalise_bytestream_files_kept.
  - intros e st.
    by apply (files_kept_event _ _ (Logged WARNING (CouldNotProcess source e))).
Qed.

(** *** Without I/O faults every temporary file is recorded *)

Lemma recorded_refl st : recorded st st.
Proof. intros Hw Hc. repeat split; try done. exists []. by rewrite !app_nil_r. Qed.

Lemma recorded_trans st1 st2 st3 :
  recorded st1 st2 -> recorded st2 st3 -> recorded st1 st3.
Proof.
  intros H1 H2 Hw Hc. destruct (H1 Hw Hc) as (Hw2 & Hc2 & evs1 & Ht1 & Hf1).
  destruct (H2 Hw2 Hc2) as (Hw3 & Hc3 & evs2 & Ht2 & Hf2).
  repeat split; try done. exists (evs1 ++ evs2).
  unfold created_names in *. by rewrite Ht2, Ht1, Hf2, Hf1, omap_app, !app_assoc.
Qed.

Lemma recorded_same st st' :
  write_errors (world st') = write_errors (world st) ->
  close_errors (world st') = close_errors (world st) ->
  trace (world st') = trace (world st) ->
  temp_files st' = temp_files st ->
  recorded st st'.
Proof.
  intros Hw' Hc' Ht Hf Hw Hc. rewrite Hw', Hc'. repeat split; try done.
  exists []. by rewrite !app_nil_r.
Qed.

Lemma recorded_event st st' ev :
  write_errors (world st') = write_errors (world st) ->
  close_errors (world st') = close_errors (world st) ->
  trace (world st') = trace (world st) ++ [ev] ->
  temp_files st' = temp_files st ++ created_names [ev] ->
  recorded st st'.
Proof.
  intros Hw' Hc' Ht Hf Hw Hc. rewrite Hw', Hc'. repeat split; try done.
  by exists [ev].
Qed.

Lemma normalise_bytestream_recorded bs : steps recorded (normalise_bytestream bs).
Proof.
  intros st. rewrite normalise_bytestream_unfold. handle_cases; simpl.
  - apply recorded_refl.
  - intros Hw _. rewrite Hw, lookup_empty in Hwrite. discriminate.
  - intros _ Hc. rewrite Hc, lookup_empty in Hclose. discriminate.
  - by apply (recorded_event _ _ (TempFileCreated name)).
  - by apply recorded_same.
Qed.

Lemma run_item_recorded self source : steps recorded (run_item self source).
Proof.
  apply run_item_steps; [apply recorded_refl | apply recorded_trans | | | | |].
  - intros filepath st. unfold call_convert.
    destruct (convert _ _ _ _) as [r fs]. simpl.
    apply (recorded_event _ _ (ConvertCalled filepath (_convert_kwargs self)));
      simpl; by rewrite ?app_nil_r.
  - intros ds st. by apply recorded_same.
  - intros d st. by apply recorded_same.
  - intros bs _. apply normalise_bytestream_recorded.
  - intros e st.
    apply (recorded_event _ _ (Logged WARNING (CouldNotProcess source e)));
      simpl; by rewrite ?app_nil_r.
Qed.

(** In a world without I/O faults the loop records every temporary file
    it creates. *)
Lemma run_try_state_recorded self paths w :
  write_errors w = ∅ ->
  close_errors w = ∅ ->
  temp_files (run_try_state self paths w) = created_names (item_events self paths w).
Proof.
  intros Hw Hc.
  destruct (for__run_item_steps _ recorded_refl recorded_trans self paths
              (fun source _ => run_item_recorded self source) (mkSt w [] [])
              Hw Hc)
    as (_ & _ & evs & Htr & Htf).
  unfold run_try_state. rewrite run_try_snd.
  rewrite (item_events_eq self paths w evs); [exact Htf|].
  unfold run_try_state. by rewrite run_try_snd.
Qed.

(** The cleanup touches no path outside its list. *)
Lemma cleanup_loop_others (l : list string) (st : St) (p : string) :
  p ∉ l ->
  files (world (snd (for_ l cleanup_item st))) !! p = files (world st) !! p.
Proof.
  revert st. induction l as [|x l IH]; intros st Hp; simpl; [done|].
  apply not_elem_of_cons in Hp as [Hpx Hpl].
  destruct (cleanup_item_spec x st) as (st1 & evs & Hrun & _ & _ & _ & _ & Hcase).
  unfold bind. rewrite Hrun. rewrite (IH st1 Hpl).
  destruct Hcase as [(_ & -> & _)|(e & _ & -> & _)]; [|done].
  by apply lookup_delete_ne.
Qed.

(** X7: with a converter that leaves the file system alone, [run] changes
    no path but those of the temporary files it created itself: every file
    that existed before still exists with its content, and when no write
    and no close of a temporary file fails and the system refuses no removal
    the file system after [run] is the one before. *)
Theorem run_keeps_files
    (self : DoclingConverter) (paths : list Source) (w : World) :
  read_only (_converter self) ->
  (forall p content,
      files w !! p = Some content ->
      files (snd (run self paths w)) !! p = Some content)
  /\ (forall p,
         p ∉ created_names (item_events self paths w) ->
         files (snd (run self paths w)) !! p = files w !! p)
  /\ (undeletable w = ∅ -> write_errors w = ∅ -> close_errors w = ∅ ->
      files (snd (run self paths w)) = files w).
Proof.
  intros Hro.
  assert (Hkept : files_kept (mkSt w [] []) (run_try_state self paths w)).
  { unfold run_try_state. rewrite run_try_snd.
    apply for__run_item_steps; [apply files_kept_refl | apply files_kept_trans |].
    intros source _. by apply run_item_files_kept. }
  destruct Hkept as (evs & Htr & Hnew & Hold). simpl in Htr, Hnew, Hold.
  rewrite <- (item_events_eq _ _ _ _ Htr) in Hnew, Hold.
  destruct (run_try_state_tracked self paths w)
    as [Hu (evs' & ts & Htr' & Htf & Hsub & _)].
  simpl in Hu, Htr', Htf. rewrite <- (item_events_eq _ _ _ _ Htr') in Hsub.
  assert (Hrun : files (snd (run self paths w))
                 = files (world (snd (cleanup (run_try_state self paths w))))).
  { by rewrite run_unfold. }
  assert (Hothers : forall p,
             p ∉ created_names (item_events self paths w) ->
             files (snd (run self paths w)) !! p = files w !! p).
  { intros p Hp. rewrite Hrun. unfold cleanup.
    rewrite cleanup_loop_others; [by apply Hold|].
    intros Hin. apply Hp. rewrite Htf in Hin. by apply (elem_of_sublist _ _ _ Hin). }
  split; [|split].
  - intros p content Hp. rewrite Hothers; [done|].
    intros Hin. by rewrite (Hnew p Hin) in Hp.
  - exact Hothers.
  - intros Hempty Hw Hc. apply map_eq. intros p.
    destruct (decide (p ∈ created_names (item_events self paths w))) as [Hin|Hout];
      [|by apply Hothers].
    rewrite (Hnew p Hin). rewrite Hrun.
    destruct (cleanup_spec (run_try_state self paths w))
      as (st' & cevs & -> & _ & _ & _ & _ & _ & _ & Hgone & _).
    simpl. apply Hgone.
    + by rewrite (run_try_state_recorded self paths w Hw Hc).
    + rewrite Hu, Hempty. apply not_elem_of_empty.
Qed.

Lemma Mock_converter_read_only : read_only Mock.converter.
Proof.
  intros source kwargs fs. unfold Mock.converter. simpl.
  by destruct (String.eqb source "bad.pdf").
Qed.

Lemma run_keeps_files_witness :
  read_only (_converter (Mock.component "markdown"))
  /\ undeletable
       (mkWorld {[ "/data/notes.txt" := [x68; x69] ]} ∅ ["/tmp/tmpa1b2c3d4"] []) = ∅
  /\ write_errors
       (mkWorld {[ "/data/notes.txt" := [x68; x69] ]} ∅ ["/tmp/tmpa1b2c3d4"] []) = ∅
  /\ close_errors
       (mkWorld {[ "/data/notes.txt" := [x68; x69] ]} ∅ ["/tmp/tmpa1b2c3d4"] []) = ∅
  /\ files (snd (run (Mock.component "markdown")
                   [src_ByteStream Mock.bytestream; src_str "bad.pdf"]
                   (mkWorld {[ "/data/notes.txt" := [x68; x69] ]} ∅
                      ["/tmp/tmpa1b2c3d4"] [])))
     = {[ "/data/notes.txt" := [x68; x69] ]}.
Proof.
  split; [exact Mock_converter_read_only|]. do 3 (split; [reflexivity|]).
  exact (proj2 (proj2 (run_keeps_files (Mock.component "markdown")
                         [src_ByteStream Mock.bytestream; src_str "bad.pdf"]
                         (mkWorld {[ "/data/notes.txt" := [x68; x69] ]} ∅
                            ["/tmp/tmpa1b2c3d4"] [])
                         Mock_converter_read_only))
           eq_refl eq_refl eq_refl).
Defined.

(** ** What the [finally] block removes *)

(** X18: [run] ends with the outcome of its [try] block, and its trace is
    the trace of the [try] block, in which no removal occurs, followed by
    the trace of the [finally] block: one removal attempt for each name
    recorded in [temp_files], in the order of recording, and nothing else
    but DEBUG records.  The names recorded are names of temporary files the
    [try] block created, in the order of creation; when no write and no
    close fails they are all of them.  After [run] every recorded file is
    gone unless the system refused the removal, and a recorded file that is
    still there has its DEBUG record. *)
Theorem run_removes_recorded_temporary_files
    (self : DoclingConverter) (paths : list Source) (w : World) :
  fst (run self paths w) = fst (run_try self paths (mkSt w [] []))
  /\ trace (snd (run self paths w))
     = trace w ++ item_events self paths w ++ cleanup_events self paths w
  /\ unlinked_names (item_events self paths w) = []
  /\ unlinked_names (cleanup_events self paths w)
     = temp_files (run_try_state self paths w)
  /\ temp_files (run_try_state self paths w)
       `sublist_of` created_names (item_events self paths w)
  /\ (write_errors w = ∅ -> close_errors w = ∅ ->
      temp_files (run_try_state self paths w)
      = created_names (item_events self paths w))
  /\ created_names (cleanup_events self paths w) = []
  /\ forallb is_cleanup_event (cleanup_events self paths w) = true
  /\ (forall name,
        name ∈ temp_files (run_try_state self paths w) ->
        name ∉ undeletable w ->
        files (snd (run self paths w)) !! name = None)
  /\ (forall name,
        name ∈ temp_files (run_try_state self paths w) ->
        is_Some (files (snd (run self paths w)) !! name) ->
        exists e,
          Logged DEBUG (FailedToDelete name e) ∈ cleanup_events self paths w).
Proof.
  pose proof (run_try_state_recorded self paths w) as Hrec.
  unfold cleanup_events, item_events in *. rewrite run_unfold. simpl.
  destruct (run_try_state_tracked self paths w)
    as [Hu (evs & ts & Htr & Htf & Hsub & Hun)].
  simpl in Hu, Htr, Htf. fold (run_try_state self paths w).
  destruct (cleanup_spec (run_try_state self paths w))
    as (st' & cevs & Hc & _ & Hu' & Htr' & Hun' & Hcr' & Hall' & Hgone & Hlog).
  rewrite Hc. simpl. rewrite Htr', Htr, !drop_app_length, <- app_assoc.
  rewrite Htr, drop_app_length in Hrec.
  repeat split; try done.
  - by rewrite Htf.
  - intros name Hin Hdel. apply Hgone; [done | by rewrite Hu].
Qed.

Lemma run_removes_recorded_temporary_files_witness :
  "/tmp/tmpa1b2c3d4.md"
    ∈ temp_files
        (run_try_state (Mock.component "markdown")
           [src_ByteStream Mock.bytestream; src_str "bad.pdf"] Mock.w0)
  /\ ("/tmp/tmpa1b2c3d4.md" ∉ undeletable Mock.w0)
  /\ files (snd (run (Mock.component "markdown")
                   [src_ByteStream Mock.bytestream; src_str "bad.pdf"] Mock.w0))
       !! "/tmp/tmpa1b2c3d4.md" = None.
Proof.
  assert (Hin : "/tmp/tmpa1b2c3d4.md"
                  ∈ temp_files
                      (run_try_state (Mock.component "markdown")
                         [src_ByteStream Mock.bytestream; src_str "bad.pdf"]
                         Mock.w0)).
  { vm_compute. apply list_elem_of_here. }
  assert (Hout : "/tmp/tmpa1b2c3d4.md" ∉ undeletable Mock.w0).
  { apply not_elem_of_empty. }
  split; [exact Hin|]. split; [exact Hout|].
  exact (proj1 (proj2 (proj2 (proj2 (proj2 (proj2 (proj2 (proj2 (proj2
           (run_removes_recorded_temporary_files (Mock.component "markdown")
              [src_ByteStream Mock.bytestream; src_str "bad.pdf"] Mock.w0)))))))))
           _ Hin Hout).
Defined.

(** ** A temporary file that was not recorded stays *)

Lemma files_stay_refl st : files_stay st st.
Proof.
  exists []. rewrite app_nil_r. repeat split; try done.
  intros p Hp. by apply elem_of_nil in Hp.
Qed.

Lemma files_stay_trans st1 st2 st3 :
  files_stay st1 st2 -> files_stay st2 st3 -> files_stay st1 st3.
Proof.
  intros (evs1 & Ht1 & Hn1 & Hk1) (evs2 & Ht2 & Hn2 & Hk2).
  exists (evs1 ++ evs2). unfold created_names in *.
  rewrite Ht2, Ht1, app_assoc, omap_app. repeat split.
  - intros p Hp. apply elem_of_app in Hp as [Hp|Hp]; [|by apply Hn2].
    by apply Hk2, Hn1.
  - intros p Hp. by apply Hk2, Hk1.
Qed.

Lemma files_stay_same st st' :
  trace (world st') = trace (world st) ->
  files (world st') = files (world st) ->
  files_stay st st'.
Proof.
  intros Ht Hf. exists []. rewrite app_nil_r, Hf. repeat split; try done.
  intros p Hp. by apply elem_of_nil in Hp.
Qed.

Lemma files_stay_event st st' ev :
  trace (world st') = trace (world st) ++ [ev] ->
  created_names [ev] = [] ->
  files (world st') = files (world st) ->
  files_stay st st'.
Proof.
  intros Ht Hc Hf. exists [ev]. rewrite Hc, Hf. repeat split; try done.
  intros p Hp. by apply elem_of_nil in Hp.
Qed.

Lemma files_stay_created st st' name content :
  trace (world st') = trace (world st) ++ [TempFileCreated name] ->
  files (world st') = <[name := content]> (files (world st)) ->
  files_stay st st'.
Proof.
  intros Ht Hf. exists [TempFileCreated name]. simpl. rewrite Hf. repeat split.
  - done.
  - intros p Hp. apply list_elem_of_singleton in Hp. subst.
    rewrite lookup_insert_eq. by eexists.
  - intros p Hp. destruct (decide (name = p)) as [->|Hne].
    + rewrite lookup_insert_eq. by eexists.
    + by rewrite lookup_insert_ne.
Qed.

Lemma normalise_bytestream_files_stay bs : steps files_stay (normalise_bytestream bs).
Proof.
  intros st. rewrite normalise_bytestream_unfold. handle_cases; simpl.
  - apply files_stay_refl.
  - by apply (files_stay_created _ _ name []).
  - by apply (files_stay_created _ _ name (ByteStream.data bs)).
  - by apply (files_stay_created _ _ name (ByteStream.data bs)).
  - by apply files_stay_same.
Qed.

Lemma run_item_files_stay self source :
  read_only (_converter self) -> steps files_stay (run_item self source).
Proof.
  intros Hro.
  apply run_item_steps; [apply files_stay_refl | apply files_stay_trans | | | | |].
  - intros filepath st. unfold call_convert.
    pose proof (Hro filepath (_convert_kwargs self)
                  (files (world (set_world
                     (emit (ConvertCalled filepath (_convert_kwargs self))) st))))
      as Hfs.
    destruct (convert _ _ _ _) as [r fs]. simpl in *. subst fs.
    by apply (files_stay_event _ _ (ConvertCalled filepath (_convert_kwargs self))).
  - intros ds st. by apply files_stay_same.
  - intros d st. by apply files_stay_same.
  - intros bs _. apply normalise_bytestream_files_stay.
  - intros e st.
    by apply (files_stay_event _ _ (Logged WARNING (CouldNotProcess source e))).
Qed.

(** X19: with a converter that leaves the file system alone, a temporary
    file that [run] created without recording its name in [temp_files] (its
    write or its close failed) is not among the removals the [finally]
    block attempts and is still there when [run] ends. *)
Theorem run_keeps_unrecorded_temporary_files
    (self : DoclingConverter) (paths : list Source) (w : World) (name : string) :
  read_only (_converter self) ->
  name ∈ created_names (item_events self paths w) ->
  name ∉ temp_files (run_try_state self paths w) ->
  (name ∉ unlinked_names
            (item_events self paths w ++ cleanup_events self paths w))
  /\ is_Some (files (snd (run self paths w)) !! name).
Proof.
  intros Hro Hin Hout.
  assert (Hstay : files_stay (mkSt w [] []) (run_try_state self paths w)).
  { unfold run_try_state. rewrite run_try_snd.
    apply for__run_item_steps; [apply files_stay_refl | apply files_stay_trans |].
    intros source _. by apply run_item_files_stay. }
  destruct Hstay as (evs & Htr & Hnew & _). simpl in Htr.
  rewrite <- (item_events_eq _ _ _ _ Htr) in Hnew.
  destruct (run_try_state_tracked self paths w)
    as [_ (evs' & ts & Htr' & _ & _ & Hun)].
  simpl in Htr'. rewrite <- (item_events_eq _ _ _ _ Htr') in Hun.
  split.
  - assert (Happ : forall a b,
               unlinked_names (a ++ b) = unlinked_names a ++ unlinked_names b).
    { intros a b. apply omap_app. }
    rewrite Happ, Hun. simpl.
    unfold cleanup_events. rewrite run_unfold. simpl.
    fold (run_try_state self paths w).
    destruct (cleanup_spec (run_try_state self paths w))
      as (st' & cevs & -> & _ & _ & Htr'' & Hun' & _).
    simpl. by rewrite Htr'', drop_app_length, Hun'.
  - rewrite run_unfold. simpl. fold (run_try_state self paths w).
    unfold cleanup. rewrite (cleanup_loop_others _ _ _ Hout). by apply Hnew.
Qed.

Lemma run_keeps_unrecorded_temporary_files_witness :
  read_only (_converter (Mock.component "markdown"))
  /\ "/tmp/tmpa1b2c3d4.md"
       ∈ created_names
           (item_events (Mock.component "markdown")
              [src_ByteStream Mock.bytestream] Faulty.w_full)
  /\ ("/tmp/tmpa1b2c3d4.md"
        ∉ temp_files
            (run_try_state (Mock.component "markdown")
               [src_ByteStream Mock.bytestream] Faulty.w_full))
  /\ is_Some (files (snd (run (Mock.component "markdown")
                            [src_ByteStream Mock.bytestream] Faulty.w_full))
               !! "/tmp/tmpa1b2c3d4.md").
Proof.
  assert (Hin : "/tmp/tmpa1b2c3d4.md"
                  ∈ created_names
                      (item_events (Mock.component "markdown")
                         [src_ByteStream Mock.bytestream] Faulty.w_full)).
  { vm_compute. apply list_elem_of_here. }
  assert (Hnil : temp_files
                   (run_try_state (Mock.component "markdown")
                      [src_ByteStream Mock.bytestream] Faulty.w_full) = []).
  { vm_compute. reflexivity. }
  assert (Hout : "/tmp/tmpa1b2c3d4.md"
                   ∉ temp_files
                       (run_try_state (Mock.component "markdown")
                          [src_ByteStream Mock.bytestream] Faulty.w_full)).
  { rewrite Hnil. apply not_elem_of_nil. }
  split; [exact Mock_converter_read_only|]. split; [exact Hin|].
  split; [exact Hout|].
  exact (proj2 (run_keeps_unrecorded_temporary_files (Mock.component "markdown")
                  [src_ByteStream Mock.bytestream] Faulty.w_full
                  "/tmp/tmpa1b2c3d4.md" Mock_converter_read_only Hin Hout)).
Defined.

(** ** Where the records come from *)

Lemma chunk_documents_Return chunker extractor chunk_iter docs :
  chunk_documents chunker extractor chunk_iter = Return docs ->
  exists chunks,
    chunk_iter = iter_of_list chunks
    /\ Forall2 (fun c d =>
                  serialize chunker c = Return (Document.content d)
                  /\ extract_chunk_meta extractor c = Return (Document.meta d))
               chunks docs.
Proof.
  revert docs. induction chunk_iter as [|c rest IH|e]; intros docs; simpl.
  - intros [= <-]. by exists [].
  - destruct (serialize chunker c) as [content|e] eqn:Hs; [|discriminate].
    destruct (extract_chunk_meta extractor c) as [meta|e] eqn:Hm; [|discriminate].
    simpl. destruct (chunk_documents chunker extractor rest) as [ds|e];
      [|discriminate].
    simpl. intros [= <-]. destruct (IH ds eq_refl) as (chunks & -> & Hall).
    exists (c :: chunks). split; [done|]. by constructor.
  - discriminate.
Qed.

(** X8: in chunked export mode an item contributes all the records of its
    document or none: when it contributes any, its conversion succeeded,
    the chunker's iterator ran to its end, and the records are, chunk for
    chunk and in order, the serialisation and the extracted metadata of the
    chunks it yielded. *)
Theorem item_records_doc_chunks_complete
    (self : DoclingConverter) (chunker : BaseChunker) (source : Source) (st : St) :
  _export_type self = ExportType_value DOC_CHUNKS ->
  _chunker self = Some chunker ->
  item_records self source st <> [] ->
  exists dl_doc st1 chunks,
    convert_source self source st = (Return dl_doc, st1)
    /\ chunk chunker dl_doc = iter_of_list chunks
    /\ Forall2 (fun c d =>
                  serialize chunker c = Return (Document.content d)
                  /\ extract_chunk_meta (_meta_extractor self) c
                     = Return (Document.meta d))
               chunks (item_records self source st).
Proof.
  intros Hmode Hchunker. rewrite (item_records_doc_chunks _ _ _ _ Hmode Hchunker).
  destruct (convert_source self source st) as [[dl_doc|e] st1]; [|done].
  destruct (chunk_documents _ _ _) as [ds|e] eqn:E; [|done].
  intros _. destruct (chunk_documents_Return _ _ _ _ E) as (chunks & Hit & Hall).
  by exists dl_doc, st1, chunks.
Qed.

Lemma item_records_doc_chunks_complete_witness :
  _export_type (Mock.component "doc_chunks") = ExportType_value DOC_CHUNKS
  /\ _chunker (Mock.component "doc_chunks") = Some Mock.chunker
  /\ item_records (Mock.component "doc_chunks") (src_str "foo.pdf") Mock.st0 <> []
  /\ exists dl_doc st1 chunks,
       convert_source (Mock.component "doc_chunks") (src_str "foo.pdf") Mock.st0
       = (Return dl_doc, st1)
       /\ chunk Mock.chunker dl_doc = iter_of_list chunks
       /\ Forall2 (fun c d =>
                     serialize Mock.chunker c = Return (Document.content d)
                     /\ extract_chunk_meta
                          (_meta_extractor (Mock.component "doc_chunks")) c
                        = Return (Document.meta d))
                  chunks
                  (item_records (Mock.component "doc_chunks") (src_str "foo.pdf")
                     Mock.st0).
Proof.
  assert (Hne : item_records (Mock.component "doc_chunks") (src_str "foo.pdf")
                  Mock.st0 <> []).
  { vm_compute. discriminate. }
  split; [reflexivity|]. split; [reflexivity|]. split; [exact Hne|].
  exact (item_records_doc_chunks_complete (Mock.component "doc_chunks")
           Mock.chunker (src_str "foo.pdf") Mock.st0 eq_refl eq_refl Hne).
Defined.

(** X9: in markdown export mode every record an item contributes is the
    markdown export, under [_md_export_kwargs], of the document its
    conversion returned, with the metadata the extractor gives for that
    document. *)
Theorem item_records_markdown_origin
    (self : DoclingConverter) (source : Source) (st : St) (d : Document.t) :
  _export_type self = ExportType_value MARKDOWN ->
  d ∈ item_records self source st ->
  exists dl_doc st1,
    convert_source self source st = (Return dl_doc, st1)
    /\ export_to_markdown dl_doc (_md_export_kwargs self)
       = Return (Document.content d)
    /\ extract_dl_doc_meta (_meta_extractor self) dl_doc
       = Return (Document.meta d).
Proof.
  intros Hmode. rewrite (item_records_markdown _ _ _ Hmode).
  destruct (convert_source self source st) as [[dl_doc|e] st1];
    [|by intros ?%elem_of_nil].
  destruct (export_to_markdown _ _) as [content|e] eqn:Hc;
    [|by intros ?%elem_of_nil].
  destruct (extract_dl_doc_meta _ _) as [meta|e] eqn:Hm;
    [|by intros ?%elem_of_nil].
  intros Hd%list_elem_of_singleton. subst d. by exists dl_doc, st1.
Qed.

Lemma item_records_markdown_origin_witness :
  _export_type (Mock.component "markdown") = ExportType_value MARKDOWN
  /\ Mock.the_md_record
       ∈ item_records (Mock.component "markdown") (src_str "foo.pdf") Mock.st0
  /\ exists dl_doc st1,
       convert_source (Mock.component "markdown") (src_str "foo.pdf") Mock.st0
       = (Return dl_doc, st1)
       /\ export_to_markdown dl_doc (_md_export_kwargs (Mock.component "markdown"))
          = Return (Document.content Mock.the_md_record)
       /\ extract_dl_doc_meta (_meta_extractor (Mock.component "markdown")) dl_doc
          = Return (Document.meta Mock.the_md_record).
Proof.
  assert (Hin : Mock.the_md_record
                  ∈ item_records (Mock.component "markdown") (src_str "foo.pdf")
                      Mock.st0).
  { vm_compute. apply list_elem_of_here. }
  split; [reflexivity|]. split; [exact Hin|].
  exact (item_records_markdown_origin (Mock.component "markdown")
           (src_str "foo.pdf") Mock.st0 _ eq_refl Hin).
Defined.

(** ** What [_handle_bytestream] reads of the metadata *)

(** X10: [_handle_bytestream] reads nothing of the metadata but the key
    [file_extension]: setting any other key (such as [filename]) changes
    nothing, and a falsy value under [file_extension] ([None], [False], [0]
    or the empty string) is the same as no key at all. *)
Theorem _handle_bytestream_metadata (bs : ByteStream.t) (st : St) :
  (forall k v,
      k <> "file_extension" ->
      _handle_bytestream
        (ByteStream.mk (ByteStream.data bs) (<[k := v]> (ByteStream.meta bs))) st
      = _handle_bytestream bs st)
  /\ (forall v,
         ByteStream.meta bs !! "file_extension" = Some v ->
         truthy v = false ->
         _handle_bytestream bs st
         = _handle_bytestream
             (ByteStream.mk (ByteStream.data bs)
                            (delete "file_extension" (ByteStream.meta bs))) st).
Proof.
  split.
  - intros k v Hk. apply _handle_bytestream_suffix_eq; [done|].
    unfold bytestream_suffix. simpl. by rewrite lookup_insert_ne.
  - intros v Hv Hfalsy. apply _handle_bytestream_suffix_eq; [done|].
    unfold bytestream_suffix. simpl. rewrite Hv, lookup_delete_eq. simpl.
    by rewrite Hfalsy.
Qed.

Lemma _handle_bytestream_metadata_witness :
  "filename" <> "file_extension"
  /\ ByteStream.meta
       (ByteStream.mk [x23] {[ "file_extension" := PyInt 0 ]})
       !! "file_extension" = Some (PyInt 0)
  /\ truthy (PyInt 0) = false
  /\ _handle_bytestream
       (ByteStream.mk (ByteStream.data Mock.bytestream)
          (<["filename" := PyStr "other.md"]> (ByteStream.meta Mock.bytestream)))
       Mock.st0
     = _handle_bytestream Mock.bytestream Mock.st0
  /\ _handle_bytestream
       (ByteStream.mk [x23] {[ "file_extension" := PyInt 0 ]}) Mock.st0
     = _handle_bytestream
         (ByteStream.mk [x23]
            (delete "file_extension" {[ "file_extension" := PyInt 0 ]}))
         Mock.st0.
Proof.
  assert (Hk : "filename" <> "file_extension") by discriminate.
  split; [exact Hk|]. split; [reflexivity|]. split; [reflexivity|]. split.
  - exact (proj1 (_handle_bytestream_metadata Mock.bytestream Mock.st0)
             "filename" (PyStr "other.md") Hk).
  - exact (proj2 (_handle_bytestream_metadata
                    (ByteStream.mk [x23] {[ "file_extension" := PyInt 0 ]})
                    Mock.st0)
             (PyInt 0) eq_refl eq_refl).
Defined.

(** ** The conversion of a byte buffer *)

(** X11: when [_handle_bytestream] returns [name] for a byte buffer, the
    loop iteration hands the converter the path [name] and the configured
    [_convert_kwargs] in a file system where [name] holds the bytes of the
    buffer, and [name] is recorded in [temp_files] whether the conversion
    succeeds or not; when [_handle_bytestream] raises, the converter is
    not called and the error is the error of the conversion step. *)
Theorem convert_source_bytestream
    (self : DoclingConverter) (bs : ByteStream.t) (st : St) :
  (forall name is_temp st',
      _handle_bytestream bs st = (Return (name, is_temp), st') ->
      files (world st') !! name = Some (ByteStream.data bs)
      /\ fst (convert_source self (src_ByteStream bs) st)
         = res_bind (fst (convert (_converter self) name (_convert_kwargs self)
                            (files (world st'))))
                    (fun res => Return (document res))
      /\ convert_calls
           (drop (length (trace (world st')))
                 (trace (world (snd (convert_source self (src_ByteStream bs) st)))))
         = [(name, _convert_kwargs self)]
      /\ name ∈ temp_files (snd (convert_source self (src_ByteStream bs) st)))
  /\ (forall e st',
         _handle_bytestream bs st = (Raise e, st') ->
         convert_source self (src_ByteStream bs) st = (Raise e, st')).
Proof.
  split.
  - intros name is_temp st' Hh.
    destruct (_handle_bytestream_normalise _ _ _ _ _ Hh) as [_ Hn].
    assert (Hfile : files (world st') !! name = Some (ByteStream.data bs)).
    { revert Hh. rewrite _handle_bytestream_unfold.
      handle_cases; try discriminate.
      intros [= <- _ <-]. simpl. apply lookup_insert_eq. }
    split; [exact Hfile|].
    rewrite convert_source_eq. unfold bind. rewrite Hn.
    unfold call_convert, ret. simpl.
    destruct (convert _ _ _ _) as [[res|e] fs]; simpl;
      rewrite drop_app_length; repeat split; try done;
      apply elem_of_app; right; apply list_elem_of_here.
  - intros e st'. rewrite _handle_bytestream_unfold, convert_source_eq.
    unfold bind. rewrite normalise_bytestream_unfold.
    handle_cases; try discriminate; by intros [= <- <-].
Qed.

Lemma convert_source_bytestream_witness :
  _handle_bytestream Mock.bytestream Mock.st0
  = (Return ("/tmp/tmpa1b2c3d4.md", true),
     snd (_handle_bytestream Mock.bytestream Mock.st0))
  /\ files (world (snd (_handle_bytestream Mock.bytestream Mock.st0)))
       !! "/tmp/tmpa1b2c3d4.md" = Some (ByteStream.data Mock.bytestream)
  /\ "/tmp/tmpa1b2c3d4.md"
       ∈ temp_files (snd (convert_source (Mock.component "markdown")
                            (src_ByteStream Mock.bytestream) Mock.st0)).
Proof.
  assert (Hh : _handle_bytestream Mock.bytestream Mock.st0
               = (Return ("/tmp/tmpa1b2c3d4.md", true),
                  snd (_handle_bytestream Mock.bytestream Mock.st0))).
  { vm_compute. reflexivity. }
  destruct (proj1 (convert_source_bytestream (Mock.component "markdown")
                     Mock.bytestream Mock.st0) _ _ _ Hh)
    as (Hfile & _ & _ & Hin).
  split; [exact Hh|]. split; [exact Hfile | exact Hin].
Defined.

(** ** Splitting a batch *)

Lemma framed_ret {A} (a : A) : framed (ret a).
Proof. by intros ds st. Qed.

Lemma framed_raise {A} (e : PyExc) : framed (@raise A e).
Proof. by intros ds st. Qed.

Lemma framed_lift {A} (r : Res A) : framed (lift r).
Proof. by intros ds st. Qed.

Lemma framed_bind {A B} (m : M A) (k : A -> M B) :
  framed m -> (forall a, framed (k a)) -> framed (bind m k).
Proof.
  intros Hm Hk ds st. unfold bind. rewrite Hm.
  destruct (m st) as [[a|e] st1]; simpl; [|done].
  rewrite Hk. by destruct (k a st1).
Qed.

Lemma framed_try_except {A} (body : M A) (handler : PyExc -> M A) :
  framed body -> (forall e, framed (handler e)) -> framed (try_except body handler).
Proof.
  intros Hb Hh ds st. unfold try_except. rewrite Hb.
  destruct (body st) as [[a|e] st1]; simpl; [done|].
  destruct (isinstance_Exception e); [|done].
  rewrite Hh. by destruct (handler e st1).
Qed.

Lemma framed_for_ {A} (xs : list A) (body : A -> M unit) :
  (forall x, framed (body x)) -> framed (for_ xs body).
Proof.
  intros Hb. induction xs as [|x xs IH]; simpl.
  - apply framed_ret.
  - apply framed_bind; [apply Hb | intros _; exact IH].
Qed.

Lemma framed_log level record : framed (log level record).
Proof. by intros ds st. Qed.

Lemma framed_call_convert c filepath kwargs : framed (call_convert c filepath kwargs).
Proof.
  intros ds st. unfold call_convert. simpl. by destruct (convert _ _ _ _).
Qed.

Lemma framed_normalise_bytestream bs : framed (normalise_bytestream bs).
Proof.
  intros ds st. rewrite !normalise_bytestream_unfold. simpl.
  by handle_cases.
Qed.

Lemma framed_documents_extend hs_docs : framed (documents_extend hs_docs).
Proof.
  intros ds st. unfold documents_extend, prefix_documents. simpl.
  by rewrite app_assoc.
Qed.

Lemma framed_documents_append d : framed (documents_append d).
Proof.
  intros ds st. unfold documents_append, prefix_documents. simpl.
  by rewrite app_assoc.
Qed.

Lemma framed_unlink name : framed (unlink name).
Proof.
  intros ds st. unfold unlink. simpl.
  destruct (files (world st) !! name); [|done].
  by destruct (decide (name ∈ undeletable (world st))).
Qed.

Lemma framed_export_document self dl_doc : framed (export_document self dl_doc).
Proof.
  unfold export_document. repeat case_match;
    repeat (first
      [ apply framed_ret
      | apply framed_raise
      | apply framed_lift
      | apply framed_documents_extend
      | apply framed_documents_append
      | apply framed_bind; [| intros ?] ]).
Qed.

Lemma framed_run_item self source : framed (run_item self source).
Proof.
  apply framed_try_except; [|intros e; apply framed_log].
  unfold process_source. rewrite convert_source_eq.
  apply framed_bind; [|intros dl_doc; apply framed_export_document].
  apply framed_bind.
  - destruct source; [apply framed_ret..|apply framed_normalise_bytestream].
  - intros filepath. apply framed_bind; [apply framed_call_convert|].
    intros res. apply framed_ret.
Qed.

Lemma framed_cleanup : framed cleanup.
Proof.
  intros ds st. unfold cleanup. simpl.
  apply (framed_for_ (temp_files st) cleanup_item); intros name.
  apply framed_try_except; [apply framed_unlink | intros e; apply framed_log].
Qed.

Lemma Return_inj {A} (a b : A) : Return a = Return b -> a = b.
Proof. intros H. by injection H. Qed.

Lemma Return_documents_inj (d1 d2 : list Document.t) :
  Return ({[ "documents" := d1 ]} : gmap string (list Document.t))
  = Return {[ "documents" := d2 ]} ->
  d1 = d2.
Proof.
  intros H%Return_inj. apply (f_equal (fun m => m !! "documents")) in H.
  rewrite !lookup_singleton_eq in H. by apply (inj Some).
Qed.

(** X12: a batch may be split after a prefix [xs] that holds no byte
    buffer and on which [run] returns: running [xs] and then [ys] in the
    world the first run left gives the same world as running [xs ++ ys] at
    once, the records of the single run are those of the first run followed
    by those of the second, and an error that aborts the second run aborts
    the single run. *)
Theorem run_split_after_paths
    (self : DoclingConverter) (xs ys : list Source) (w : World)
    (d1 : list Document.t) :
  Forall (fun source => is_path source = true) xs ->
  fst (run self xs w) = Return {[ "documents" := d1 ]} ->
  snd (run self (xs ++ ys) w) = snd (run self ys (snd (run self xs w)))
  /\ (forall d2,
        fst (run self ys (snd (run self xs w))) = Return {[ "documents" := d2 ]} ->
        fst (run self (xs ++ ys) w) = Return {[ "documents" := d1 ++ d2 ]})
  /\ (forall e,
        fst (run self ys (snd (run self xs w))) = Raise e ->
        fst (run self (xs ++ ys) w) = Raise e).
Proof.
  intros Hall Hxs.
  destruct (run_try_state_paths self xs w Hall) as [Htf _].
  pose proof (run_paths_world self xs w Hall) as Hw1.
  unfold run_try_state in Htf, Hw1. rewrite run_try_snd in Htf, Hw1.
  rewrite run_unfold, run_try_unfold in Hxs. simpl in Hxs.
  destruct (for_ xs (run_item self) (mkSt w [] [])) as [[[]|e] st_x] eqn:Ex;
    [|discriminate].
  apply Return_documents_inj in Hxs. rename Hxs into Hd1.
  simpl in Htf, Hw1.
  assert (Hst : st_x = prefix_documents d1 (mkSt (snd (run self xs w)) [] [])).
  { unfold prefix_documents. simpl. rewrite app_nil_r, Hw1, <- Hd1, <- Htf.
    by destruct st_x. }
  set (w1 := snd (run self xs w)) in *.
  assert (Hrun : run self (xs ++ ys) w
                 = (match fst (for_ ys (run_item self) (mkSt w1 [] [])) with
                    | Return _ =>
                        Return {[ "documents" :=
                                    d1 ++ documents
                                            (snd (for_ ys (run_item self)
                                                    (mkSt w1 [] []))) ]}
                    | Raise e => Raise e
                    end,
                    snd (run self ys w1))).
  { rewrite !run_unfold, !run_try_unfold, for__app.
    rewrite (bind_Return _ _ _ _ _ Ex), Hst.
    rewrite (framed_for_ ys (run_item self) (framed_run_item self)).
    destruct (for_ ys (run_item self) (mkSt w1 [] [])) as [[[]|e] st_y]; simpl;
      by rewrite framed_cleanup. }
  assert (Hys : fst (run self ys w1)
                = match fst (for_ ys (run_item self) (mkSt w1 [] [])) with
                  | Return _ =>
                      Return {[ "documents" :=
                                  documents (snd (for_ ys (run_item self)
                                                    (mkSt w1 [] []))) ]}
                  | Raise e => Raise e
                  end).
  { rewrite run_unfold, run_try_unfold. simpl.
    by destruct (for_ ys (run_item self) (mkSt w1 [] [])) as [[[]|e] st_y]. }
  rewrite Hrun, Hys. simpl. split; [done|].
  destruct (fst (for_ ys (run_item self) (mkSt w1 [] []))) as [[]|e]; split.
  - intros d2 H2. apply Return_documents_inj in H2. by rewrite H2.
  - discriminate.
  - discriminate.
  - by intros e' [= ->].
Qed.

Lemma run_split_after_paths_witness :
  Forall (fun source => is_path source = true)
         [src_str "foo.pdf"; src_str "bad.pdf"]
  /\ fst (run (Mock.component "markdown")
            [src_str "foo.pdf"; src_str "bad.pdf"] Mock.w0)
     = Return {[ "documents" := [Mock.the_md_record] ]}
  /\ fst (run (Mock.component "markdown") [src_ByteStream Mock.bytestream]
            (snd (run (Mock.component "markdown")
                    [src_str "foo.pdf"; src_str "bad.pdf"] Mock.w0)))
     = Return {[ "documents" := [Mock.the_md_record] ]}
  /\ fst (run (Mock.component "markdown")
            ([src_str "foo.pdf"; src_str "bad.pdf"]
               ++ [src_ByteStream Mock.bytestream]) Mock.w0)
     = Return {[ "documents" := [Mock.the_md_record] ++ [Mock.the_md_record] ]}.
Proof.
  assert (Hall : Forall (fun source => is_path source = true)
                        [src_str "foo.pdf"; src_str "bad.pdf"]).
  { repeat constructor. }
  assert (Hxs : fst (run (Mock.component "markdown")
                       [src_str "foo.pdf"; src_str "bad.pdf"] Mock.w0)
                = Return {[ "documents" := [Mock.the_md_record] ]}).
  { vm_compute. reflexivity. }
  assert (Hys : fst (run (Mock.component "markdown")
                       [src_ByteStream Mock.bytestream]
                       (snd (run (Mock.component "markdown")
                               [src_str "foo.pdf"; src_str "bad.pdf"] Mock.w0)))
                = Return {[ "documents" := [Mock.the_md_record] ]}).
  { vm_compute. reflexivity. }
  split; [exact Hall|]. split; [exact Hxs|]. split; [exact Hys|].
  exact (proj1 (proj2 (run_split_after_paths (Mock.component "markdown")
                         [src_str "foo.pdf"; src_str "bad.pdf"]
                         [src_ByteStream Mock.bytestream] Mock.w0 _ Hall Hxs))
           _ Hys).
Defined.

(** ** More on serialisation *)

Lemma PyDict_inj (a b : gmap string PyVal) : PyDict a = PyDict b -> a = b.
Proof. intros H. by injection H. Qed.

Lemma to_dict_init_parameters (self : DoclingConverter) :
  to_dict self !! "init_parameters"
  = Some (PyDict {[ "convert_kwargs" := PyDict (_convert_kwargs self);
                    "md_export_kwargs" := PyDict (_md_export_kwargs self) ]}).
Proof.
  unfold to_dict, default_to_dict.
  rewrite lookup_insert_ne by done. apply lookup_singleton_eq.
Qed.

Lemma from_dict_to_dict_eq
    (default_converter : DocumentConverter) (default_chunker : BaseChunker)
    (self : DoclingConverter) :
  from_dict default_converter default_chunker (to_dict self)
  = Return (__init__ default_converter default_chunker None
              (Some (_convert_kwargs self)) (ExportType_value DOC_CHUNKS)
              (Some (_md_export_kwargs self)) None None).
Proof.
  unfold from_dict, default_from_dict. rewrite to_dict_init_parameters.
  unfold to_dict, default_to_dict. rewrite lookup_insert_eq. simpl.
  unfold DoclingConverter_call.
  destruct (decide _) as [_|Hn].
  - rewrite !lookup_insert_eq.
    rewrite (lookup_insert_ne _ "convert_kwargs" "md_export_kwargs") by done.
    rewrite lookup_singleton_eq.
    rewrite !lookup_insert_ne by done.
    rewrite !lookup_singleton_ne by done.
    reflexivity.
  - exfalso. apply Hn. rewrite dom_insert_L, dom_singleton_L.
    unfold init_parameter_names.
    intros k. rewrite !elem_of_union, !elem_of_singleton. tauto.
Qed.

(** X13: [to_dict] records the conversion parameters and the markdown
    export parameters and nothing else of the instance: two components
    serialise to the same mapping exactly when they agree on both, whatever
    their export types and collaborators. *)
Theorem to_dict_captures_kwargs (self1 self2 : DoclingConverter) :
  to_dict self1 = to_dict self2
  <-> (_convert_kwargs self1 = _convert_kwargs self2
       /\ _md_export_kwargs self1 = _md_export_kwargs self2).
Proof.
  split.
  - intros H. pose proof (to_dict_init_parameters self1) as H1.
    rewrite H, to_dict_init_parameters in H1.
    apply (inj Some), PyDict_inj in H1. split.
    + apply (f_equal (fun m => m !! "convert_kwargs")) in H1.
      rewrite !lookup_insert_eq in H1. by apply (inj Some), PyDict_inj in H1.
    + apply (f_equal (fun m => m !! "md_export_kwargs")) in H1.
      rewrite !lookup_insert_ne, !lookup_singleton_eq in H1 by done.
      by apply (inj Some), PyDict_inj in H1.
  - intros [H1 H2]. unfold to_dict. by rewrite H1, H2.
Qed.

Lemma to_dict_captures_kwargs_witness :
  _convert_kwargs (Mock.component "markdown")
  = _convert_kwargs (Interrupt.component "doc_chunks")
  /\ _md_export_kwargs (Mock.component "markdown")
     = _md_export_kwargs (Interrupt.component "doc_chunks")
  /\ to_dict (Mock.component "markdown") = to_dict (Interrupt.component "doc_chunks").
Proof.
  split; [reflexivity|]. split; [reflexivity|].
  exact (proj2 (to_dict_captures_kwargs (Mock.component "markdown")
                  (Interrupt.component "doc_chunks"))
           (conj eq_refl eq_refl)).
Defined.

(** X14: an instance obtained from [from_dict (to_dict self)] is a fixed
    point of the round trip: it serialises to the mapping of [self], and
    deserialising that mapping gives the instance back. *)
Theorem from_dict_to_dict_stable
    (default_converter : DocumentConverter) (default_chunker : BaseChunker)
    (self self' : DoclingConverter) :
  from_dict default_converter default_chunker (to_dict self) = Return self' ->
  to_dict self' = to_dict self
  /\ from_dict default_converter default_chunker (to_dict self') = Return self'.
Proof.
  rewrite from_dict_to_dict_eq. intros H%Return_inj. subst self'. split.
  - reflexivity.
  - by rewrite from_dict_to_dict_eq.
Qed.

Lemma from_dict_to_dict_stable_witness :
  from_dict Mock.converter Mock.chunker (to_dict (Interrupt.component "markdown"))
  = Return (Mock.component "doc_chunks")
  /\ to_dict (Mock.component "doc_chunks") = to_dict (Interrupt.component "markdown")
  /\ from_dict Mock.converter Mock.chunker (to_dict (Mock.component "doc_chunks"))
     = Return (Mock.component "doc_chunks").
Proof.
  assert (H : from_dict Mock.converter Mock.chunker
                (to_dict (Interrupt.component "markdown"))
              = Return (Mock.component "doc_chunks")).
  { rewrite from_dict_to_dict_eq. reflexivity. }
  split; [exact H|].
  exact (from_dict_to_dict_stable Mock.converter Mock.chunker _ _ H).
Defined.

(** X15: [from_dict] refuses a mapping without ["type"], a mapping whose
    ["type"] names another class, and initial parameters that hold a keyword
    [__init__] does not have; none of them yields an instance. *)
Theorem from_dict_refuses
    (default_converter : DocumentConverter) (default_chunker : BaseChunker)
    (data : gmap string PyVal) :
  (data !! "type" = None ->
   from_dict default_converter default_chunker data
   = Raise (DeserializationError "Missing 'type' in serialization data"))
  /\ (forall name,
         data !! "type" = Some (PyAtom (PyStr name)) ->
         name <> qualified_class_name ->
         exists msg,
           from_dict default_converter default_chunker data
           = Raise (DeserializationError msg))
  /\ (forall kwargs k,
         data !! "type" = Some (PyAtom (PyStr qualified_class_name)) ->
         data !! "init_parameters" = Some (PyDict kwargs) ->
         is_Some (kwargs !! k) ->
         k ∉ init_parameter_names ->
         exists msg,
           from_dict default_converter default_chunker data = Raise (TypeError msg)).
Proof.
  unfold from_dict, default_from_dict. split; [|split].
  - by intros ->.
  - intros name -> Hne. apply String.eqb_neq in Hne. rewrite Hne. by eexists.
  - intros kwargs k -> -> Hk Hout. rewrite String.eqb_refl. simpl.
    unfold DoclingConverter_call. destruct (decide _) as [Hsub|_]; [|by eexists].
    exfalso. apply Hout, Hsub. by apply elem_of_dom.
Qed.

Lemma from_dict_refuses_witness :
  ({[ "type" := PyAtom (PyStr "haystack.components.Other") ]} : gmap string PyVal)
    !! "type" = Some (PyAtom (PyStr "haystack.components.Other"))
  /\ "haystack.components.Other" <> qualified_class_name
  /\ (∅ : gmap string PyVal) !! "type" = None
  /\ from_dict Mock.converter Mock.chunker ∅
     = Raise (DeserializationError "Missing 'type' in serialization data")
  /\ exists msg,
       from_dict Mock.converter Mock.chunker
         {[ "type" := PyAtom (PyStr "haystack.components.Other") ]}
       = Raise (DeserializationError msg).
Proof.
  assert (Hne : "haystack.components.Other" <> qualified_class_name)
    by discriminate.
  split; [reflexivity|]. split; [exact Hne|]. split; [reflexivity|]. split.
  - exact (proj1 (from_dict_refuses Mock.converter Mock.chunker ∅) eq_refl).
  - exact (proj1 (proj2 (from_dict_refuses Mock.converter Mock.chunker
                           {[ "type" := PyAtom (PyStr "haystack.components.Other") ]}))
             _ eq_refl Hne).
Defined.

(** X16: from a mapping of the right ["type"], [from_dict] builds what
    [__init__] builds from the initial parameters it finds: without
    ["init_parameters"] the all-default instance, in chunked mode with the
    default chunker; and with an ["export_type"] entry, which [to_dict]
    never writes, an instance of that export type. *)
Theorem from_dict_defaults
    (default_converter : DocumentConverter) (default_chunker : BaseChunker) :
  (forall data,
      data !! "type" = Some (PyAtom (PyStr qualified_class_name)) ->
      data !! "init_parameters" = None ->
      from_dict default_converter default_chunker data
      = Return (__init__ default_converter default_chunker None None
                  (ExportType_value DOC_CHUNKS) None None None))
  /\ (forall data export_type,
         data !! "type" = Some (PyAtom (PyStr qualified_class_name)) ->
         data !! "init_parameters"
         = Some (PyDict {[ "export_type" := PyAtom (PyStr export_type) ]}) ->
         from_dict default_converter default_chunker data
         = Return (__init__ default_converter default_chunker None None
                     export_type None None None)).
Proof.
  unfold from_dict, default_from_dict. split.
  - intros data -> ->. rewrite String.eqb_refl. simpl.
    unfold DoclingConverter_call. rewrite !lookup_empty.
    destruct (decide _) as [_|Hn]; [reflexivity|].
    exfalso. apply Hn. rewrite dom_empty_L. apply empty_subseteq.
  - intros data export_type -> ->. rewrite String.eqb_refl. simpl.
    unfold DoclingConverter_call.
    rewrite lookup_singleton_eq, !lookup_singleton_ne by done.
    destruct (decide _) as [_|Hn]; [reflexivity|].
    exfalso. apply Hn. rewrite dom_singleton_L. unfold init_parameter_names.
    intros k. rewrite !elem_of_union, !elem_of_singleton. tauto.
Qed.

Lemma from_dict_defaults_witness :
  ({[ "type" := PyAtom (PyStr qualified_class_name);
      "init_parameters" := PyDict {[ "export_type" := PyAtom (PyStr "markdown") ]} ]}
     : gmap string PyVal) !! "type"
  = Some (PyAtom (PyStr qualified_class_name))
  /\ ({[ "type" := PyAtom (PyStr qualified_class_name);
         "init_parameters" :=
           PyDict {[ "export_type" := PyAtom (PyStr "markdown") ]} ]}
        : gmap string PyVal) !! "init_parameters"
     = Some (PyDict {[ "export_type" := PyAtom (PyStr "markdown") ]})
  /\ from_dict Mock.converter Mock.chunker
       {[ "type" := PyAtom (PyStr qualified_class_name);
          "init_parameters" :=
            PyDict {[ "export_type" := PyAtom (PyStr "markdown") ]} ]}
     = Return (Mock.component "markdown").
Proof.
  assert (H1 : ({[ "type" := PyAtom (PyStr qualified_class_name);
                   "init_parameters" :=
                     PyDict {[ "export_type" := PyAtom (PyStr "markdown") ]} ]}
                  : gmap string PyVal) !! "type"
               = Some (PyAtom (PyStr qualified_class_name))).
  { vm_compute. reflexivity. }
  assert (H2 : ({[ "type" := PyAtom (PyStr qualified_class_name);
                   "init_parameters" :=
                     PyDict {[ "export_type" := PyAtom (PyStr "markdown") ]} ]}
                  : gmap string PyVal) !! "init_parameters"
               = Some (PyDict {[ "export_type" := PyAtom (PyStr "markdown") ]})).
  { vm_compute. reflexivity. }
  split; [exact H1|]. split; [exact H2|].
  exact (proj2 (from_dict_defaults Mock.converter Mock.chunker) _ "markdown" H1 H2).
Defined.

(** ** Warnings follow the input *)

Lemma for__warned_sublist self paths st st' :
  for_ paths (run_item self) st = (Return tt, st') ->
  exists evs,
    trace (world st') = trace (world st) ++ evs
    /\ map fst (warned evs) `sublist_of` paths
    /\ Forall (fun se => isinstance_Exception (snd se) = true) (warned evs).
Proof.
  revert st. induction paths as [|s rest IH]; intros st; simpl.
  - intros [= <-]. exists []. rewrite app_nil_r. by repeat split.
  - unfold bind. destruct (run_item self s st) as [[[]|e] st1] eqn:E;
      [|discriminate].
    intros Hrest. destruct (IH _ Hrest) as (evs2 & Htr2 & Hsub2 & Hall2).
    destruct (run_item_Return_cases _ _ _ _ E) as (evs1 & Htr1 & Hcase).
    exists (evs1 ++ evs2). rewrite Htr2, Htr1, <- app_assoc. split; [done|].
    unfold warned in *. rewrite omap_app, map_app.
    destruct Hcase as [[_ ->]|(e & st_x & _ & He & -> & _)]; simpl.
    + split; [by apply sublist_cons | exact Hall2].
    + split; [by apply sublist_skip | by constructor].
Qed.

(** X17: whatever the export type, when [run] returns, the warnings it
    logged name input items in input order, no item more than its
    occurrences in the input, and each carries an error that derives from
    [Exception]. *)
Theorem run_warnings_follow_input
    (self : DoclingConverter) (paths : list Source) (w : World)
    (res : gmap string (list Document.t)) :
  fst (run self paths w) = Return res ->
  map fst (warned (item_events self paths w)) `sublist_of` paths
  /\ Forall (fun se => isinstance_Exception (snd se) = true)
            (warned (item_events self paths w)).
Proof.
  rewrite run_unfold, run_try_unfold. simpl.
  destruct (for_ paths (run_item self) (mkSt w [] [])) as [[[]|e] st'] eqn:E;
    [|discriminate].
  intros _. destruct (for__warned_sublist _ _ _ _ E) as (evs & Htr & Hsub & Hall).
  rewrite (item_events_eq self paths w evs); [by split|].
  unfold run_try_state. by rewrite run_try_snd, E.
Qed.

Lemma run_warnings_follow_input_witness :
  fst (run (Mock.component "doc_chunks")
         [src_str "foo.pdf"; src_str "bad.pdf"; src_str "bar.pdf"] Mock.w0)
  = Return {[ "documents" :=
                concat (per_item_records (Mock.component "doc_chunks")
                          [src_str "foo.pdf"; src_str "bad.pdf"; src_str "bar.pdf"]
                          Mock.st0) ]}
  /\ map fst (warned (item_events (Mock.component "doc_chunks")
                        [src_str "foo.pdf"; src_str "bad.pdf"; src_str "bar.pdf"]
                        Mock.w0))
       `sublist_of` [src_str "foo.pdf"; src_str "bad.pdf"; src_str "bar.pdf"].
Proof.
  assert (H : fst (run (Mock.component "doc_chunks")
                     [src_str "foo.pdf"; src_str "bad.pdf"; src_str "bar.pdf"]
                     Mock.w0)
              = Return {[ "documents" :=
                            concat (per_item_records (Mock.component "doc_chunks")
                                      [src_str "foo.pdf"; src_str "bad.pdf";
                                       src_str "bar.pdf"] Mock.st0) ]}).
  { vm_compute. reflexivity. }
  split; [exact H|].
  exact (proj1 (run_warnings_follow_input _ _ _ _ H)).
Defined.
